(** * Variable refresh rate controller and present statistics

    A shallow embedding of
    [libhwc2.1/libvrr/VariableRefreshRateController.cpp] and of the key and
    value types of
    [libhwc2.1/libvrr/Statistics/VariableRefreshRateStatistic.h],
    followed by the properties established about them.

    Conventions.
    - C++ integers are [Z]; [uint64_t] arithmetic wraps modulo [2^64] and
      [int64_t] sums are reduced to the two's-complement range.
    - A member function running under [mMutex] is a computation in the
      monad [M]: it reads and updates the [Controller] and emits the
      observable effects (log lines, condition-variable notifications,
      panel-node writes) in program order.
    - What the environment decides (clock readings, the outcome of the
      panel-node write) is an explicit argument. *)

From stdpp Require Import base option list sorting gmap strings.
From Stdlib Require Import ZArith Lia.

Local Open Scope string_scope.
Local Open Scope list_scope.
Local Open Scope Z_scope.

(** ** Machine arithmetic *)

Definition uint64_wrap (z : Z) : Z := z mod 2 ^ 64.

Definition int64_wrap (z : Z) : Z := (z + 2 ^ 63) mod 2 ^ 64 - 2 ^ 63.

(** [a + b] and [a - b] on [int64_t] operands. *)
Definition int64_add (a b : Z) : Z := int64_wrap (a + b).
Definition int64_sub (a b : Z) : Z := int64_wrap (a - b).

(** ** Statistics key and value (VariableRefreshRateStatistic.h) *)

(** Modelled from the spec: [power_mode] is one of Off, Doze, Normal,
    DozeSuspend, in this order; the four constants are the values of the
    platform's [hardware/hwcomposer_defs.h], which is not among the
    sources. *)
Definition HWC_POWER_MODE_OFF : Z := 0.
Definition HWC_POWER_MODE_DOZE : Z := 1.
Definition HWC_POWER_MODE_NORMAL : Z := 2.
Definition HWC_POWER_MODE_DOZE_SUSPEND : Z := 3.

(** [mBrightnessMode] holds the underlying value of the [BrightnessMode]
    enumerator, on which the built-in [<] of the enumeration compares. *)
Record DisplayStatus := mkDisplayStatus {
  mActiveConfigId : Z;
  mPowerMode : Z;
  mBrightnessMode : Z
}.

Definition isOff (s : DisplayStatus) : bool :=
  if (mPowerMode s =? HWC_POWER_MODE_OFF)
     || (mPowerMode s =? HWC_POWER_MODE_DOZE_SUSPEND)
  then true
  else false.

(** [DisplayStatus::operator==] *)
Definition DisplayStatus_eq (lhs rhs : DisplayStatus) : bool :=
  if isOff lhs || isOff rhs then Bool.eqb (isOff lhs) (isOff rhs)
  else (mActiveConfigId lhs =? mActiveConfigId rhs)
       && (mPowerMode lhs =? mPowerMode rhs)
       && (mBrightnessMode lhs =? mBrightnessMode rhs).

(** The three-field comparison at the end of [DisplayStatus::operator<]. *)
Definition DisplayStatus_lex (lhs rhs : DisplayStatus) : bool :=
  if negb (mPowerMode lhs =? mPowerMode rhs)
  then mPowerMode lhs <? mPowerMode rhs
  else if negb (mActiveConfigId lhs =? mActiveConfigId rhs)
  then mActiveConfigId lhs <? mActiveConfigId rhs
  else mBrightnessMode lhs <? mBrightnessMode rhs.

(** [DisplayStatus::operator<] *)
Definition DisplayStatus_lt (lhs rhs : DisplayStatus) : bool :=
  if isOff lhs || isOff rhs
  then
    if Bool.eqb (isOff lhs) (isOff rhs) then false
    else DisplayStatus_lex lhs rhs
  else DisplayStatus_lex lhs rhs.

Record DisplayPresentRecord := mkDisplayPresentRecord {
  mCount : Z;
  mLastTimeStampNs : Z;
  mUpdated : bool
}.

(** [DisplayPresentRecord() = default] *)
Definition DisplayPresentRecord_default : DisplayPresentRecord :=
  {| mCount := 0; mLastTimeStampNs := 0; mUpdated := false |}.

(** [DisplayPresentRecord::operator+=] *)
Definition DisplayPresentRecord_add_assign
    (this other : DisplayPresentRecord) : DisplayPresentRecord :=
  {| mCount := uint64_wrap (mCount this + mCount other);
     mLastTimeStampNs := Z.max (mLastTimeStampNs this) (mLastTimeStampNs other);
     mUpdated := true |}.

(** [lhs != rhs] on [DisplayStatus]: the struct declares no [operator!=],
    the expression is the negation of [operator==]. *)
Definition DisplayStatus_ne (lhs rhs : DisplayStatus) : bool :=
  negb (DisplayStatus_eq lhs rhs).

(** The key of the statistics. *)
Record DisplayPresentProfile := mkDisplayPresentProfile {
  mCurrentDisplayConfig : DisplayStatus;
  mNumVsync : Z
}.

(** [DisplayPresentProfile::isOff] *)
Definition DisplayPresentProfile_isOff (p : DisplayPresentProfile) : bool :=
  isOff (mCurrentDisplayConfig p).

(** The comparison at the end of [DisplayPresentProfile::operator<]. *)
Definition DisplayPresentProfile_lex (lhs rhs : DisplayPresentProfile) : bool :=
  if DisplayStatus_ne (mCurrentDisplayConfig lhs) (mCurrentDisplayConfig rhs)
  then DisplayStatus_lt (mCurrentDisplayConfig lhs) (mCurrentDisplayConfig rhs)
  else mNumVsync lhs <? mNumVsync rhs.

(** [DisplayPresentProfile::operator<] *)
Definition DisplayPresentProfile_lt (lhs rhs : DisplayPresentProfile) : bool :=
  if DisplayPresentProfile_isOff lhs || DisplayPresentProfile_isOff rhs
  then
    if Bool.eqb (DisplayPresentProfile_isOff lhs) (DisplayPresentProfile_isOff rhs)
    then false
    else DisplayPresentProfile_lex lhs rhs
  else DisplayPresentProfile_lex lhs rhs.

(** Statuses used to exercise the order: the same configuration and
    brightness under three power modes. *)
Definition status_off : DisplayStatus :=
  {| mActiveConfigId := 1; mPowerMode := HWC_POWER_MODE_OFF; mBrightnessMode := 0 |}.
Definition status_doze_suspend : DisplayStatus :=
  {| mActiveConfigId := 1; mPowerMode := HWC_POWER_MODE_DOZE_SUSPEND;
     mBrightnessMode := 0 |}.
Definition status_normal : DisplayStatus :=
  {| mActiveConfigId := 1; mPowerMode := HWC_POWER_MODE_NORMAL; mBrightnessMode := 0 |}.

(** ** Controller data (VariableRefreshRateController.cpp) *)

Inductive VrrControllerState := kDisable | kRendering | kHibernate.

(** Modelled from the spec: the event kinds are RenderingTimeout,
    HibernateTimeout, NextFrameInsertion, NotifyExpectedPresentConfig and
    StatisticsUpdate; the enumeration is declared in a header that is not
    among the sources. *)
Inductive VrrControllerEventType :=
  | kRenderingTimeout
  | kHibernateTimeout
  | kNextFrameInsertion
  | kNotifyExpectedPresentConfig
  | kStatisticsUpdate.

Record VrrControllerEvent := mkEvent {
  mEventType : VrrControllerEventType;
  mWhenNs : Z
}.

#[global] Instance VrrControllerState_eq_dec : EqDecision VrrControllerState.
Proof. solve_decision. Defined.

#[global] Instance VrrControllerEventType_eq_dec : EqDecision VrrControllerEventType.
Proof. solve_decision. Defined.

#[global] Instance VrrControllerEvent_eq_dec : EqDecision VrrControllerEvent.
Proof. solve_decision. Defined.

Record NotifyExpectedPresentConfig_t := mkNotifyConfig {
  TimeoutNs : Z
}.

Record VrrConfig_t := mkVrrConfig {
  minFrameIntervalNs : Z;
  notifyExpectedPresentConfig : NotifyExpectedPresentConfig_t
}.

(** The triple [{config, time, duration}] stored for a present. *)
Record PresentEvent := mkPresentEvent {
  config : Z;
  time : Z;
  duration : Z
}.

(** [mRecord]; the ring [mPresentHistory] is kept oldest entry first. *)
Record VrrRecord := mkVrrRecord {
  mNextExpectedPresentTime : option PresentEvent;
  mPendingCurrentPresentTime : option PresentEvent;
  mPresentHistory : list PresentEvent
}.

Record Controller := mkController {
  mState : VrrControllerState;
  mEnabled : bool;
  mThreadExit : bool;
  mVrrConfigs : gmap Z VrrConfig_t;
  mVrrActiveConfig : Z;
  mEventQueue : list VrrControllerEvent;
  mRecord : VrrRecord;
  mPendingFramesToInsert : Z
}.

Definition set_mState (v : VrrControllerState) (c : Controller) : Controller :=
  mkController v (mEnabled c) (mThreadExit c) (mVrrConfigs c) (mVrrActiveConfig c)
               (mEventQueue c) (mRecord c) (mPendingFramesToInsert c).
Definition set_mEnabled (v : bool) (c : Controller) : Controller :=
  mkController (mState c) v (mThreadExit c) (mVrrConfigs c) (mVrrActiveConfig c)
               (mEventQueue c) (mRecord c) (mPendingFramesToInsert c).
Definition set_mThreadExit (v : bool) (c : Controller) : Controller :=
  mkController (mState c) (mEnabled c) v (mVrrConfigs c) (mVrrActiveConfig c)
               (mEventQueue c) (mRecord c) (mPendingFramesToInsert c).
Definition set_mVrrConfigs (v : gmap Z VrrConfig_t) (c : Controller) : Controller :=
  mkController (mState c) (mEnabled c) (mThreadExit c) v (mVrrActiveConfig c)
               (mEventQueue c) (mRecord c) (mPendingFramesToInsert c).
Definition set_mVrrActiveConfig (v : Z) (c : Controller) : Controller :=
  mkController (mState c) (mEnabled c) (mThreadExit c) (mVrrConfigs c) v
               (mEventQueue c) (mRecord c) (mPendingFramesToInsert c).
Definition set_mEventQueue (v : list VrrControllerEvent) (c : Controller) : Controller :=
  mkController (mState c) (mEnabled c) (mThreadExit c) (mVrrConfigs c)
               (mVrrActiveConfig c) v (mRecord c) (mPendingFramesToInsert c).
Definition set_mRecord (v : VrrRecord) (c : Controller) : Controller :=
  mkController (mState c) (mEnabled c) (mThreadExit c) (mVrrConfigs c)
               (mVrrActiveConfig c) (mEventQueue c) v (mPendingFramesToInsert c).
Definition set_mPendingFramesToInsert (v : Z) (c : Controller) : Controller :=
  mkController (mState c) (mEnabled c) (mThreadExit c) (mVrrConfigs c)
               (mVrrActiveConfig c) (mEventQueue c) (mRecord c) v.

(** *** The event queue

    Modelled from the spec: the queue hands out the entry with the
    smallest [when_ns] first and, within one instant, the entry posted
    first; the comparison of [VrrControllerEvent] is declared in a header
    that is not among the sources.  The [std::priority_queue] is the list
    of its entries in the order in which [top]/[pop] deliver them.  Among
    events of one [mWhenNs] a binary heap fixes no order; the properties
    below speak of the queue up to permutation, through counts and
    membership, and of its first event only where that event is strictly
    the earliest. *)

Fixpoint pq_push (e : VrrControllerEvent) (q : list VrrControllerEvent)
    : list VrrControllerEvent :=
  match q with
  | [] => [e]
  | x :: rest =>
      if mWhenNs e <? mWhenNs x then e :: x :: rest else x :: pq_push e rest
  end.

Definition pq_top (q : list VrrControllerEvent) : option VrrControllerEvent := head q.

Definition pq_pop (q : list VrrControllerEvent) : list VrrControllerEvent := tail q.

Definition pq_empty (q : list VrrControllerEvent) : bool :=
  match q with [] => true | _ => false end.

(** Number of queued events of one kind. *)
Definition count_type (ty : VrrControllerEventType) (q : list VrrControllerEvent) : nat :=
  length (filter (λ e, mEventType e = ty) q).
#[global] Arguments count_type : simpl never.

(** The queue lists its events by non-decreasing [mWhenNs]. *)
Definition earliest_first (q : list VrrControllerEvent) : Prop :=
  StronglySorted (λ a b, mWhenNs a ≤ mWhenNs b) q.

(** *** Effects and the monad of the locked member functions *)

Inductive LogSeverity := LOG_INFO | LOG_WARNING | LOG_ERROR.

(** What a member function does to the outside: a [LOG] line (with the
    literal text that starts it; the values streamed after it are left out),
    [mCondition.notify_all()], and the request to write a command to the
    panel node. *)
Inductive Effect :=
  | Log (severity : LogSeverity) (message : string)
  | NotifyAll
  | WriteCommandString (node : string) (command : string).

#[global] Instance LogSeverity_eq_dec : EqDecision LogSeverity.
Proof. solve_decision. Defined.

#[global] Instance Effect_eq_dec : EqDecision Effect.
Proof. solve_decision. Defined.

(** The effect is a write to the panel node. *)
Definition is_write (e : Effect) : bool :=
  match e with WriteCommandString _ _ => true | _ => false end.

(** Number of panel writes among the effects. *)
Fixpoint count_writes (out : list Effect) : nat :=
  match out with
  | [] => 0%nat
  | e :: rest => ((if is_write e then 1 else 0) + count_writes rest)%nat
  end.

Definition M (A : Type) : Type := Controller → A * Controller * list Effect.

#[global] Instance M_ret : MRet M := λ A a c, (a, c, []).

#[global] Instance M_bind : MBind M := λ A B f m c,
  let '(a, c1, out1) := m c in
  let '(b, c2, out2) := f a c1 in
  (b, c2, out1 ++ out2).

Definition get : M Controller := λ c, (c, c, []).
Definition modify (f : Controller → Controller) : M unit := λ c, (tt, f c, []).
Definition emit (e : Effect) : M unit := λ c, (tt, c, [e]).
Definition LOG (severity : LogSeverity) (message : string) : M unit :=
  emit (Log severity message).
Definition if_then (b : bool) (m : M unit) : M unit := if b then m else mret tt.

(** The controller after a computation, and what the computation emitted. *)
Definition state_after {A : Type} (m : M A) (c : Controller) : Controller := (m c).1.2.
Definition effects_of {A : Type} (m : M A) (c : Controller) : list Effect := (m c).2.
Definition result_of {A : Type} (m : M A) (c : Controller) : A := (m c).1.1.

(** *** What the missing headers fix

    The headers that declare the class, [VrrConfig_t] and the panel
    commands are not among the sources.  What the member functions use of
    them is a parameter of the model: the wake-up period in power saving,
    the frame-insertion command token, the capacity of the present history
    ring, and the [VrrConfig_t] that [mVrrConfigs[key]] creates for an
    absent key. *)
Class VrrHeader := {
  kDefaultWakeUpTimeInPowerSaving : Z;
  PANEL_REFRESH_CTRL_FI : string;
  kPresentHistoryCapacity : nat;
  VrrConfig_default : VrrConfig_t
}.

(** What the environment supplies to one pass of the worker: the clock
    readings of the three [getNowNs()] call sites it can reach and the
    result of [WriteCommandString]. *)
Record WorkerEnv := mkWorkerEnv {
  nowNs : Z;          (* threadBody, before the deadline test *)
  nowInsertion : Z;   (* doFrameInsertionLocked, posting kNextFrameInsertion *)
  nowTimeout : Z;     (* handleHibernate / handleStayHibernate *)
  writeOk : bool      (* mFileNodeWritter->WriteCommandString(...) *)
}.

(** How one pass through the body of the worker's [for (;;)] ends. *)
Inductive LoopControl :=
  | LoopContinue
  | LoopBreak
  | LoopWait (deadline : option Z).

Section MemberFunctions.
Context `{VrrHeader}.

(** Modelled from the spec: the present history is a fixed-capacity ring
    that overwrites its oldest entry on wrap; [mPresentHistory.next() = e]
    therefore keeps the [kPresentHistoryCapacity] latest entries. *)
Definition ring_next_assign (e : PresentEvent) (ring : list PresentEvent)
    : list PresentEvent :=
  let all := ring ++ [e] in
  drop (length all - kPresentHistoryCapacity) all.

(** Modelled from the spec: [reset()] clears the present ring and the
    pending descriptors; this is [mRecord.clear()]. *)
Definition VrrRecord_clear (r : VrrRecord) : VrrRecord :=
  {| mNextExpectedPresentTime := None;
     mPendingCurrentPresentTime := None;
     mPresentHistory := [] |}.

(** [mVrrConfigs[key]]: [std::unordered_map::operator[]] inserts a new
    entry, [VrrConfig_default], when the key is absent. *)
Definition mVrrConfigs_at (key : Z) : M VrrConfig_t :=
  c ← get;
  match mVrrConfigs c !! key with
  | Some v => mret v
  | None =>
      modify (set_mVrrConfigs (<[key := VrrConfig_default]> (mVrrConfigs c)));;
      mret VrrConfig_default
  end.

Definition postEvent (type : VrrControllerEventType) (when : Z) : M unit :=
  modify (λ c, set_mEventQueue
                 (pq_push {| mEventType := type; mWhenNs := when |} (mEventQueue c)) c).

(** [dropEventLocked()] *)
Definition dropEventLocked : M unit := modify (set_mEventQueue []).

(** The [while (!mEventQueue.empty())] loop of
    [dropEventLocked(event_type)]: [src] is what is left of [mEventQueue],
    [q] the local queue. *)
Fixpoint dropEvent_loop (event_type : VrrControllerEventType)
    (src q : list VrrControllerEvent) : list VrrControllerEvent :=
  match src with
  | [] => q
  | it :: rest =>
      dropEvent_loop event_type rest
        (if decide (mEventType it ≠ event_type) then pq_push it q else q)
  end.

(** [dropEventLocked(VrrControllerEventType)] *)
Definition dropEventLocked_type (event_type : VrrControllerEventType) : M unit :=
  modify (λ c, set_mEventQueue (dropEvent_loop event_type (mEventQueue c) []) c).

(** The line feed that [dumpEventQueueLocked] puts after each event. *)
Definition line_feed : string := String (Ascii.ascii_of_nat 10) EmptyString.

(** The [while (!mEventQueue.empty())] loop of [dumpEventQueueLocked]:
    [src] is what is left of [mEventQueue], [q] the local queue, [content]
    the text so far.  [toString] stands for [VrrControllerEvent::toString],
    which is declared in a header that is not among the sources. *)
Fixpoint dumpEvent_loop (toString : VrrControllerEvent → string)
    (src q : list VrrControllerEvent) (content : string)
    : list VrrControllerEvent * string :=
  match src with
  | [] => (q, content)
  | it :: rest =>
      dumpEvent_loop toString rest (pq_push it q)
        (String.append (String.append content (toString it)) line_feed)
  end.

(** One line for each event of [q], in the order of [q]. *)
Fixpoint dump_text (toString : VrrControllerEvent → string)
    (q : list VrrControllerEvent) : string :=
  match q with
  | [] => EmptyString
  | e :: rest =>
      String.append (String.append (toString e) line_feed) (dump_text toString rest)
  end.

(** [std::string dumpEventQueueLocked()] *)
Definition dumpEventQueueLocked (toString : VrrControllerEvent → string) : M string :=
  c ← get;
  if pq_empty (mEventQueue c) then mret EmptyString
  else
    let '(q, content) := dumpEvent_loop toString (mEventQueue c) [] EmptyString in
    modify (set_mEventQueue q);;
    mret content.

Definition getNextEventTimeLocked : M Z :=
  c ← get;
  match pq_top (mEventQueue c) with
  | None =>
      LOG LOG_WARNING "VrrController: event queue should NOT be empty.";;
      mret (-1)
  | Some event => mret (mWhenNs event)
  end.

(** [int notifyExpectedPresent(int64_t timestamp, int32_t frameIntervalNs)] *)
Definition notifyExpectedPresent (now timestamp frameIntervalNs : Z) : M Z :=
  modify (λ c, set_mRecord
     {| mNextExpectedPresentTime :=
          Some {| config := mVrrActiveConfig c; time := timestamp;
                  duration := frameIntervalNs |};
        mPendingCurrentPresentTime := mPendingCurrentPresentTime (mRecord c);
        mPresentHistory := mPresentHistory (mRecord c) |} c);;
  postEvent kNotifyExpectedPresentConfig now;;
  emit NotifyAll;;
  mret 0.

Definition reset : M unit :=
  modify (set_mEventQueue []);;
  modify (λ c, set_mRecord (VrrRecord_clear (mRecord c)) c);;
  dropEventLocked.

Definition setActiveVrrConfiguration (now config : Z) : M unit :=
  c ← get;
  match mVrrConfigs c !! config with
  | None => LOG LOG_ERROR "VrrController: Set an undefined active configuration"
  | Some _ =>
      modify (set_mState kRendering);;
      modify (set_mVrrActiveConfig config);;
      dropEventLocked_type kRenderingTimeout;;
      vrrConfig ← mVrrConfigs_at config;
      postEvent kRenderingTimeout
        (int64_add now (TimeoutNs (notifyExpectedPresentConfig vrrConfig)));;
      emit NotifyAll
  end.

Definition setEnable (isEnabled : bool) : M unit :=
  c ← get;
  if decide (mEnabled c = isEnabled) then mret tt
  else
    modify (set_mEnabled isEnabled);;
    if_then (negb isEnabled) dropEventLocked;;
    emit NotifyAll.

Definition setVrrConfigurations (configs : gmap Z VrrConfig_t) : M unit :=
  modify (set_mVrrConfigs configs).

Definition stopThread : M unit :=
  modify (set_mThreadExit true);;
  modify (set_mEnabled false);;
  modify (set_mState kDisable);;
  emit NotifyAll.

Definition onPresent (now : Z) : M unit :=
  c ← get;
  match mPendingCurrentPresentTime (mRecord c) with
  | None =>
      LOG LOG_WARNING
        "VrrController: VrrController: Present without expected present time information"
  | Some pending =>
      LOG LOG_INFO "VrrController: On present frame: time = ";;
      modify (λ c, set_mRecord
         {| mNextExpectedPresentTime := mNextExpectedPresentTime (mRecord c);
            mPendingCurrentPresentTime := None;
            mPresentHistory := ring_next_assign pending (mPresentHistory (mRecord c)) |} c);;
      if_then (bool_decide (mState c = kHibernate))
        (LOG LOG_WARNING
           "VrrController: Present during hibernation without prior notification via notifyExpectedPresent.";;
         modify (set_mState kRendering);;
         dropEventLocked_type kHibernateTimeout);;
      dropEventLocked_type kRenderingTimeout;;
      dropEventLocked_type kNextFrameInsertion;;
      vrrConfig ← mVrrConfigs_at (mVrrActiveConfig c);
      postEvent kRenderingTimeout
        (int64_add now (TimeoutNs (notifyExpectedPresentConfig vrrConfig)));;
      emit NotifyAll
  end.

Definition setExpectedPresentTime (timestampNanos frameIntervalNs : Z) : M unit :=
  modify (λ c, set_mRecord
     {| mNextExpectedPresentTime := mNextExpectedPresentTime (mRecord c);
        mPendingCurrentPresentTime :=
          Some {| config := mVrrActiveConfig c; time := timestampNanos;
                  duration := frameIntervalNs |};
        mPresentHistory := mPresentHistory (mRecord c) |} c).

Definition onVsync (timestampNanos vsyncPeriodNanos : Z) : M unit := mret tt.

Definition kNodeName : string := "refresh_ctrl".

(** [int doFrameInsertionLocked()]; the [bool] result of the write is
    returned converted to [int].  The controller is taken to have been
    constructed on a display with a panel file node, so that
    [mFileNodeWritter] is set. *)
Definition doFrameInsertionLocked (env : WorkerEnv) : M Z :=
  c ← get;
  if mPendingFramesToInsert c <=? 0 then
    LOG LOG_ERROR
      "VrrController: the number of frames to be inserted should >= 1, but is ";;
    mret (-1)
  else
    emit (WriteCommandString kNodeName PANEL_REFRESH_CTRL_FI);;
    if negb (writeOk env) then
      LOG LOG_ERROR "VrrController: write command to file node failed.";;
      mret (-1)
    else
      modify (set_mPendingFramesToInsert (mPendingFramesToInsert c - 1));;
      (if 0 <? mPendingFramesToInsert c - 1 then
         vrrConfig ← mVrrConfigs_at (mVrrActiveConfig c);
         postEvent kNextFrameInsertion
           (int64_add (nowInsertion env) (minFrameIntervalNs vrrConfig))
       else mret tt);;
      mret 1.

(** [int doFrameInsertionLocked(int frames)] *)
Definition doFrameInsertionLocked_frames (frames : Z) (env : WorkerEnv) : M Z :=
  modify (set_mPendingFramesToInsert frames);;
  doFrameInsertionLocked env.

Definition handleCadenceChange : M unit :=
  c ← get;
  match mNextExpectedPresentTime (mRecord c) with
  | None =>
      LOG LOG_WARNING
        "VrrController: cadence change occurs without the expected present timing information."
  | Some _ =>
      modify (λ c, set_mRecord
         {| mNextExpectedPresentTime := None;
            mPendingCurrentPresentTime := mPendingCurrentPresentTime (mRecord c);
            mPresentHistory := mPresentHistory (mRecord c) |} c)
  end.

Definition handleResume : M unit :=
  c ← get;
  match mNextExpectedPresentTime (mRecord c) with
  | None =>
      LOG LOG_WARNING
        "VrrController: resume occurs without the expected present timing information."
  | Some _ =>
      modify (λ c, set_mRecord
         {| mNextExpectedPresentTime := None;
            mPendingCurrentPresentTime := mPendingCurrentPresentTime (mRecord c);
            mPresentHistory := mPresentHistory (mRecord c) |} c)
  end.

Definition kNumFramesToInsert : Z := 2.

Definition handleHibernate (env : WorkerEnv) : M unit :=
  ret ← doFrameInsertionLocked_frames kNumFramesToInsert env;
  LOG LOG_INFO "VrrController: apply frame insertion, ret = ";;
  postEvent kHibernateTimeout
    (int64_add (nowTimeout env) kDefaultWakeUpTimeInPowerSaving).

Definition handleStayHibernate (env : WorkerEnv) : M unit :=
  postEvent kHibernateTimeout
    (int64_add (nowTimeout env) kDefaultWakeUpTimeInPowerSaving).

(** *** The worker ([threadBody])

    The body of the [for (;;)] loop.  Where the source blocks on
    [mCondition] the pass ends with [LoopWait]: the mutex is released and
    other threads run.  When the wait returns the worker goes on, under the
    mutex again, from the statement after the wait; there is one function
    for each of these entry points. *)

(** From [if (mEventQueue.empty())] after the deadline test to the end of
    the loop body; the worker continues here when [wait_for] times out. *)
Definition dispatchEvent (env : WorkerEnv) : M LoopControl :=
  c ← get;
  match pq_top (mEventQueue c) with
  | None =>
      LOG LOG_ERROR "VrrController: event queue should NOT be empty.";;
      mret LoopBreak
  | Some event =>
      modify (λ c, set_mEventQueue (pq_pop (mEventQueue c)) c);;
      LOG LOG_INFO "VrrController: handle event in state = ";;
      (if decide (mState c = kRendering) then
         if_then (bool_decide (mEventType event = kHibernateTimeout))
           (LOG LOG_ERROR
              "VrrController: receiving a hibernate timeout event while in the rendering state.");;
         match mEventType event with
         | kRenderingTimeout =>
             handleHibernate env;;
             modify (set_mState kHibernate)
         | kNotifyExpectedPresentConfig => handleCadenceChange
         | _ => mret tt
         end
       else
         if_then (bool_decide (mEventType event = kRenderingTimeout))
           (LOG LOG_ERROR
              "VrrController: receiving a rendering timeout event while in the hibernate state.");;
         if_then (bool_decide (mState c ≠ kHibernate))
           (LOG LOG_ERROR
              "VrrController: expecting to be in hibernate, but instead in state = ");;
         match mEventType event with
         | kHibernateTimeout => handleStayHibernate env
         | kNotifyExpectedPresentConfig =>
             handleResume;;
             modify (set_mState kRendering)
         | kNextFrameInsertion =>
             doFrameInsertionLocked env;;
             mret tt
         | _ => mret tt
         end);;
      mret LoopContinue
  end.

(** From [getNextEventTimeLocked()] on; the worker continues here when the
    wait on an empty queue returns.  [wait_for] returning before its
    timeout restarts the loop. *)
Definition threadBody_fromDeadline (env : WorkerEnv) : M LoopControl :=
  whenNs ← getNextEventTimeLocked;
  if nowNs env <? whenNs then mret (LoopWait (Some (int64_sub whenNs (nowNs env))))
  else dispatchEvent env.

(** From [if (mEventQueue.empty())] before the deadline test. *)
Definition threadBody_fromQueueTest (env : WorkerEnv) : M LoopControl :=
  c ← get;
  if pq_empty (mEventQueue c) then mret (LoopWait None)
  else threadBody_fromDeadline env.

(** From the second [if (!mEnabled)]; the worker continues here when the
    wait of a disabled controller returns. *)
Definition threadBody_fromEnabledTest (env : WorkerEnv) : M LoopControl :=
  c ← get;
  if negb (mEnabled c) then mret LoopContinue
  else threadBody_fromQueueTest env.

(** The whole body, from [if (mThreadExit) break]. *)
Definition threadBody_iteration (env : WorkerEnv) : M LoopControl :=
  c ← get;
  if mThreadExit c then mret LoopBreak
  else if negb (mEnabled c) then mret (LoopWait None)
  else threadBody_fromQueueTest env.

(** *** Traces *)

(** A step of the system: a call of a public member function by a client
    thread, or the worker running under the mutex from one of its entry
    points. *)
Inductive Op :=
  | CallNotifyExpectedPresent (now timestamp frameIntervalNs : Z)
  | CallReset
  | CallSetActiveVrrConfiguration (now config : Z)
  | CallSetEnable (isEnabled : bool)
  | CallSetVrrConfigurations (configs : gmap Z VrrConfig_t)
  | CallStopThread
  | CallOnPresent (now : Z)
  | CallSetExpectedPresentTime (timestampNanos frameIntervalNs : Z)
  | CallOnVsync (timestampNanos vsyncPeriodNanos : Z)
  | WorkerIteration (env : WorkerEnv)
  | WorkerFromEnabledTest (env : WorkerEnv)
  | WorkerFromDeadline (env : WorkerEnv)
  | WorkerDispatch (env : WorkerEnv).

Definition is_public (op : Op) : bool :=
  match op with
  | WorkerIteration _ | WorkerFromEnabledTest _
  | WorkerFromDeadline _ | WorkerDispatch _ => false
  | _ => true
  end.

Definition run_op (op : Op) : M unit :=
  match op with
  | CallNotifyExpectedPresent now timestamp frameIntervalNs =>
      notifyExpectedPresent now timestamp frameIntervalNs;; mret tt
  | CallReset => reset
  | CallSetActiveVrrConfiguration now config => setActiveVrrConfiguration now config
  | CallSetEnable isEnabled => setEnable isEnabled
  | CallSetVrrConfigurations configs => setVrrConfigurations configs
  | CallStopThread => stopThread
  | CallOnPresent now => onPresent now
  | CallSetExpectedPresentTime timestampNanos frameIntervalNs =>
      setExpectedPresentTime timestampNanos frameIntervalNs
  | CallOnVsync timestampNanos vsyncPeriodNanos => onVsync timestampNanos vsyncPeriodNanos
  | WorkerIteration env => threadBody_iteration env;; mret tt
  | WorkerFromEnabledTest env => threadBody_fromEnabledTest env;; mret tt
  | WorkerFromDeadline env => threadBody_fromDeadline env;; mret tt
  | WorkerDispatch env => dispatchEvent env;; mret tt
  end.

Definition exec (op : Op) (c : Controller) : Controller := state_after (run_op op) c.

Definition exec_trace (ops : list Op) (c : Controller) : Controller :=
  foldl (λ c op, exec op c) c ops.

(** The controller as the constructor leaves it: [mState = kDisable] is set
    by the constructor, the containers and optionals are empty.
    Modelled from the spec: the worker does not dispatch before
    [set_enable(true)], no termination has been requested and
    [pending_frames_to_insert] is not negative, so [mEnabled], [mThreadExit]
    and [mPendingFramesToInsert] start as [false], [false] and [0]; the
    initial [mVrrActiveConfig] is left open. *)
Definition constructed (activeConfig : Z) : Controller :=
  {| mState := kDisable;
     mEnabled := false;
     mThreadExit := false;
     mVrrConfigs := ∅;
     mVrrActiveConfig := activeConfig;
     mEventQueue := [];
     mRecord := {| mNextExpectedPresentTime := None;
                   mPendingCurrentPresentTime := None;
                   mPresentHistory := [] |};
     mPendingFramesToInsert := 0 |}.

(** States that some trace reaches from a freshly constructed controller. *)
Inductive reachable : Controller → Prop :=
  | reachable_constructed activeConfig : reachable (constructed activeConfig)
  | reachable_exec c op : reachable c → reachable (exec op c).

End MemberFunctions.

(** *** Concrete inputs used by the examples below *)

Definition example_header : VrrHeader :=
  {| kDefaultWakeUpTimeInPowerSaving := 500000000;
     PANEL_REFRESH_CTRL_FI := "PANEL_REFRESH_CTRL_FI";
     kPresentHistoryCapacity := 8;
     VrrConfig_default :=
       {| minFrameIntervalNs := 0;
          notifyExpectedPresentConfig := {| TimeoutNs := 0 |} |} |}.

(** A 30 Hz configuration with a 30 ms rendering timeout. *)
Definition example_config : VrrConfig_t :=
  {| minFrameIntervalNs := 33333333;
     notifyExpectedPresentConfig := {| TimeoutNs := 30000000 |} |}.

Definition example_configs : gmap Z VrrConfig_t := {[ 1 := example_config ]}.

(** All clock readings of a worker pass equal to [t]. *)
Definition env_at (t : Z) (ok : bool) : WorkerEnv :=
  {| nowNs := t; nowInsertion := t; nowTimeout := t; writeOk := ok |}.

(** A controller in the middle of a burst: hibernating on configuration 1
    with one frame left to insert (the state that [trace_one_burst] below
    reaches). *)
Definition example_mid_burst : Controller :=
  {| mState := kHibernate;
     mEnabled := true;
     mThreadExit := false;
     mVrrConfigs := example_configs;
     mVrrActiveConfig := 1;
     mEventQueue := [ {| mEventType := kNextFrameInsertion; mWhenNs := 63333333 |};
                      {| mEventType := kHibernateTimeout; mWhenNs := 530000000 |} ];
     mRecord := {| mNextExpectedPresentTime := None;
                   mPendingCurrentPresentTime := None;
                   mPresentHistory := [] |};
     mPendingFramesToInsert := 1 |}.

(** Configuration 1 is activated, its rendering timeout expires after
    30 ms and the worker enters hibernation. *)
Definition trace_one_burst : list Op :=
  [ CallSetVrrConfigurations example_configs;
    CallSetEnable true;
    CallSetActiveVrrConfiguration 0 1;
    WorkerIteration (env_at 30000000 true) ].

(** After [trace_one_burst], configuration 1 is activated again one
    millisecond later, and its rendering timeout expires before the frame
    insertion scheduled by the first burst is due. *)
Definition trace_two_bursts : list Op :=
  trace_one_burst
  ++ [ CallSetActiveVrrConfiguration 31000000 1;
       WorkerIteration (env_at 61000000 true) ].

Definition example_descriptor : PresentEvent :=
  {| config := 1; time := 70000000; duration := 16666666 |}.

(** [example_mid_burst] after [setExpectedPresentTime]. *)
Definition example_presenting : Controller :=
  set_mRecord {| mNextExpectedPresentTime := None;
                 mPendingCurrentPresentTime := Some example_descriptor;
                 mPresentHistory := [] |}
              example_mid_burst.

(** A hibernating controller whose next event is a
    [kNotifyExpectedPresentConfig] while no hint is pending. *)
Definition example_resume : Controller :=
  set_mEventQueue
    [ {| mEventType := kNotifyExpectedPresentConfig; mWhenNs := 40000000 |};
      {| mEventType := kHibernateTimeout; mWhenNs := 530000000 |} ]
    example_mid_burst.

(** Configuration 1 has just been activated on an enabled controller: the
    state that the first three steps of [trace_one_burst] reach. *)
Definition example_rendering : Controller :=
  {| mState := kRendering;
     mEnabled := true;
     mThreadExit := false;
     mVrrConfigs := example_configs;
     mVrrActiveConfig := 1;
     mEventQueue := [ {| mEventType := kRenderingTimeout; mWhenNs := 30000000 |} ];
     mRecord := {| mNextExpectedPresentTime := None;
                   mPendingCurrentPresentTime := None;
                   mPresentHistory := [] |};
     mPendingFramesToInsert := 0 |}.

(** A stand-in for [VrrControllerEvent::toString]. *)
Definition example_toString (e : VrrControllerEvent) : string :=
  match mEventType e with
  | kRenderingTimeout => "RenderingTimeout"
  | kHibernateTimeout => "HibernateTimeout"
  | kNextFrameInsertion => "NextFrameInsertion"
  | kNotifyExpectedPresentConfig => "NotifyExpectedPresentConfig"
  | kStatisticsUpdate => "StatisticsUpdate"
  end.

(** * Properties *)

(** ** Statistics *)

Lemma uint64_wrap_small z : 0 ≤ z < 2 ^ 64 → uint64_wrap z = z.
Proof. intros Hz. unfold uint64_wrap. by apply Z.mod_small. Qed.

Lemma int64_wrap_small z : - 2 ^ 63 ≤ z < 2 ^ 63 → int64_wrap z = z.
Proof.
  intros Hz. unfold int64_wrap.
  rewrite Z.mod_small; lia.
Qed.

Lemma int64_add_exact a b : - 2 ^ 63 ≤ a + b < 2 ^ 63 → int64_add a b = a + b.
Proof. apply int64_wrap_small. Qed.

(** C3, as amended: [a += b] gives the sum of the counts in [uint64_t]
    arithmetic, the larger of the two timestamps, and an updated flag that
    is [true] whatever the flags of [a] and [b] are. *)
Theorem add_assign_fields (a b : DisplayPresentRecord) :
  let r := DisplayPresentRecord_add_assign a b in
  mCount r = (mCount a + mCount b) mod 2 ^ 64
  ∧ mLastTimeStampNs r = Z.max (mLastTimeStampNs a) (mLastTimeStampNs b)
  ∧ mUpdated r = true.
Proof. by cbn. Qed.

(** C3, counterexample: adding two fresh records, both with the flag
    unset, gives a record whose flag is set, not the disjunction of the
    two flags. *)
Lemma add_assign_flag_not_or :
  mUpdated DisplayPresentRecord_default = false
  ∧ mUpdated (DisplayPresentRecord_add_assign DisplayPresentRecord_default
                                              DisplayPresentRecord_default)
    ≠ mUpdated DisplayPresentRecord_default || mUpdated DisplayPresentRecord_default.
Proof. split; [reflexivity | cbn; discriminate]. Qed.

Lemma isOff_spec s :
  isOff s = true ↔
  mPowerMode s = HWC_POWER_MODE_OFF ∨ mPowerMode s = HWC_POWER_MODE_DOZE_SUSPEND.
Proof.
  unfold isOff.
  destruct (Z.eqb_spec (mPowerMode s) HWC_POWER_MODE_OFF) as [Hoff|Hoff];
    destruct (Z.eqb_spec (mPowerMode s) HWC_POWER_MODE_DOZE_SUSPEND) as [Hds|Hds];
    cbn; intuition congruence.
Qed.

(** Two off statuses are never ordered. *)
Lemma DisplayStatus_lt_off_off a b :
  isOff a = true → isOff b = true → DisplayStatus_lt a b = false.
Proof. intros Ha Hb. unfold DisplayStatus_lt. by rewrite Ha, Hb. Qed.

(** Between two statuses that are on, the order is the lexicographic one
    on (power mode, configuration, brightness). *)
Lemma DisplayStatus_lt_on_on a b :
  isOff a = false → isOff b = false →
  DisplayStatus_lt a b = true ↔
  mPowerMode a < mPowerMode b
  ∨ (mPowerMode a = mPowerMode b ∧ mActiveConfigId a < mActiveConfigId b)
  ∨ (mPowerMode a = mPowerMode b ∧ mActiveConfigId a = mActiveConfigId b
     ∧ mBrightnessMode a < mBrightnessMode b).
Proof.
  intros Ha Hb. unfold DisplayStatus_lt, DisplayStatus_lex. rewrite Ha, Hb. cbn.
  destruct (Z.eqb_spec (mPowerMode a) (mPowerMode b)) as [Hp|Hp];
    destruct (Z.eqb_spec (mActiveConfigId a) (mActiveConfigId b)) as [Hc|Hc];
    cbn; rewrite Z.ltb_lt; lia.
Qed.

(** [operator==] holds between any two off statuses. *)
Lemma DisplayStatus_eq_off_off a b :
  isOff a = true → isOff b = true → DisplayStatus_eq a b = true.
Proof. intros Ha Hb. unfold DisplayStatus_eq. by rewrite Ha, Hb. Qed.

(** C4, evaluated: [status_off] and [status_doze_suspend] are both off,
    equal for [operator==] and unordered, yet [status_normal] lies strictly
    between them, so the two do not compare alike against a third status. *)
Theorem DisplayStatus_lt_splits_off_class :
  isOff status_off = true
  ∧ isOff status_doze_suspend = true
  ∧ DisplayStatus_eq status_off status_doze_suspend = true
  ∧ DisplayStatus_lt status_off status_doze_suspend = false
  ∧ DisplayStatus_lt status_doze_suspend status_off = false
  ∧ DisplayStatus_lt status_off status_normal = true
  ∧ DisplayStatus_lt status_doze_suspend status_normal = false
  ∧ DisplayStatus_lt status_normal status_off = false
  ∧ DisplayStatus_lt status_normal status_doze_suspend = true.
Proof. repeat split. Qed.

(** *** Further properties of the statistics key and value *)

Ltac status_cases :=
  repeat match goal with
  | |- context [Z.eqb ?a ?b] => destruct (Z.eqb_spec a b)
  | |- context [Z.ltb ?a ?b] => destruct (Z.ltb_spec a b)
  end.

Lemma DisplayStatus_eq_refl a : DisplayStatus_eq a a = true.
Proof.
  unfold DisplayStatus_eq. destruct (isOff a); cbn; [done|].
  by rewrite !Z.eqb_refl.
Qed.

Lemma DisplayStatus_eq_sym a b : DisplayStatus_eq a b = DisplayStatus_eq b a.
Proof.
  unfold DisplayStatus_eq. destruct (isOff a), (isOff b); cbn; try done.
  by rewrite (Z.eqb_sym (mActiveConfigId a)), (Z.eqb_sym (mPowerMode a)),
             (Z.eqb_sym (mBrightnessMode a)).
Qed.

(** Among statuses that are on, [operator==] is equality of the structs. *)
Lemma DisplayStatus_eq_on_on a b :
  isOff a = false → isOff b = false → DisplayStatus_eq a b = true → a = b.
Proof.
  intros Ha Hb. unfold DisplayStatus_eq. rewrite Ha, Hb. cbn.
  intros [[?%Z.eqb_eq ?%Z.eqb_eq]%andb_true_iff ?%Z.eqb_eq]%andb_true_iff.
  destruct a, b; cbn in *; congruence.
Qed.

Lemma DisplayStatus_incomparable a b :
  DisplayStatus_lt a b = false ∧ DisplayStatus_lt b a = false
  ↔ DisplayStatus_eq a b = true.
Proof.
  unfold DisplayStatus_lt, DisplayStatus_eq, DisplayStatus_lex.
  destruct (isOff a) eqn:Ha, (isOff b) eqn:Hb; cbn.
  - tauto.
  - assert (mPowerMode a ≠ mPowerMode b).
    { intros Heq. unfold isOff in Ha, Hb. rewrite Heq in Ha. congruence. }
    status_cases; cbn; split; try done; intros [? ?]; try done; lia.
  - assert (mPowerMode a ≠ mPowerMode b).
    { intros Heq. unfold isOff in Ha, Hb. rewrite Heq in Ha. congruence. }
    status_cases; cbn; split; try done; intros [? ?]; try done; lia.
  - status_cases; cbn; split; try done; try (intros [? ?]; try done; lia).
    all: intros _; exfalso; lia.
Qed.

(** X1: [DisplayStatus::operator==] is an equivalence relation: reflexive,
    symmetric and transitive, with all off statuses in one class. *)
Theorem DisplayStatus_eq_equivalence :
  (∀ a, DisplayStatus_eq a a = true)
  ∧ (∀ a b, DisplayStatus_eq a b = DisplayStatus_eq b a)
  ∧ (∀ a b c, DisplayStatus_eq a b = true → DisplayStatus_eq b c = true →
              DisplayStatus_eq a c = true)
  ∧ (∀ a b, isOff a = true → isOff b = true → DisplayStatus_eq a b = true).
Proof.
  split; [apply DisplayStatus_eq_refl|]. split; [apply DisplayStatus_eq_sym|].
  split.
  - intros a b c. unfold DisplayStatus_eq.
    destruct (isOff a), (isOff b), (isOff c); cbn; try done.
    rewrite !andb_true_iff, !Z.eqb_eq. intros [[-> ->] ->] [[-> ->] ->]. done.
  - intros a b Ha Hb. unfold DisplayStatus_eq. by rewrite Ha, Hb.
Qed.

(** X2: [operator<] leaves two statuses unordered exactly when [operator==]
    holds between them. *)
Theorem DisplayStatus_unordered_iff_eq a b :
  DisplayStatus_lt a b = false ∧ DisplayStatus_lt b a = false
  ↔ DisplayStatus_eq a b = true.
Proof. apply DisplayStatus_incomparable. Qed.

(** X3: [DisplayStatus::operator<] is irreflexive and asymmetric. *)
Theorem DisplayStatus_lt_strict :
  (∀ a, DisplayStatus_lt a a = false)
  ∧ (∀ a b, DisplayStatus_lt a b = true → DisplayStatus_lt b a = false).
Proof.
  split.
  - intros a.
    apply (proj1 (proj2 (DisplayStatus_incomparable a a) (DisplayStatus_eq_refl a))).
  - intros a b. unfold DisplayStatus_lt, DisplayStatus_lex.
    destruct (isOff a), (isOff b); cbn; try done.
    all: status_cases; cbn; try done; try lia.
Qed.

(** X4: two keys of the statistics are left unordered by
    [DisplayPresentProfile::operator<] (neither is less than the other)
    exactly when both are off (whatever their [mNumVsync]) or both are on
    with the same status and the same [mNumVsync]. *)
Theorem DisplayPresentProfile_unordered_iff lhs rhs :
  DisplayPresentProfile_lt lhs rhs = false ∧ DisplayPresentProfile_lt rhs lhs = false
  ↔ (DisplayPresentProfile_isOff lhs = true ∧ DisplayPresentProfile_isOff rhs = true)
    ∨ (DisplayPresentProfile_isOff lhs = false
       ∧ DisplayPresentProfile_isOff rhs = false
       ∧ mCurrentDisplayConfig lhs = mCurrentDisplayConfig rhs
       ∧ mNumVsync lhs = mNumVsync rhs).
Proof.
  unfold DisplayPresentProfile_lt, DisplayPresentProfile_lex,
    DisplayPresentProfile_isOff, DisplayStatus_ne.
  pose proof (DisplayStatus_incomparable (mCurrentDisplayConfig lhs)
                (mCurrentDisplayConfig rhs)) as Hs.
  rewrite (DisplayStatus_eq_sym (mCurrentDisplayConfig rhs)
             (mCurrentDisplayConfig lhs)).
  destruct (isOff (mCurrentDisplayConfig lhs)) eqn:Hl,
           (isOff (mCurrentDisplayConfig rhs)) eqn:Hr; cbn.
  - split; [by left|done].
  - destruct (DisplayStatus_eq _ _) eqn:He; cbn.
    + unfold DisplayStatus_eq in He. rewrite Hl, Hr in He. done.
    + split; [intros Hn; apply Hs in Hn; done|]. intros [[? ?]|(? & ? & _)]; done.
  - destruct (DisplayStatus_eq _ _) eqn:He; cbn.
    + unfold DisplayStatus_eq in He. rewrite Hl, Hr in He. done.
    + split; [intros Hn; apply Hs in Hn; done|]. intros [[? ?]|(? & ? & _)]; done.
  - destruct (DisplayStatus_eq _ _) eqn:He; cbn.
    + apply DisplayStatus_eq_on_on in He as Heq; [|done..].
      rewrite !Z.ltb_ge. split.
      * intros [? ?]. right. repeat split; try done. lia.
      * intros [[? _]|(_ & _ & _ & ->)]; [done|lia].
    + split; [intros Hn; apply Hs in Hn; done|].
      intros [[? ?]|(_ & _ & Heq & _)]; [done|].
      rewrite Heq, DisplayStatus_eq_refl in He. done.
Qed.

(** X5: merging records with [operator+=] is commutative and associative,
    so the result of accumulating several records does not depend on the
    order. *)
Theorem add_assign_comm_assoc (a b c : DisplayPresentRecord) :
  DisplayPresentRecord_add_assign a b = DisplayPresentRecord_add_assign b a
  ∧ DisplayPresentRecord_add_assign (DisplayPresentRecord_add_assign a b) c
    = DisplayPresentRecord_add_assign a (DisplayPresentRecord_add_assign b c).
Proof.
  unfold DisplayPresentRecord_add_assign, uint64_wrap. cbn. split; f_equal.
  - f_equal. lia.
  - lia.
  - rewrite Zplus_mod_idemp_l, Zplus_mod_idemp_r. f_equal. lia.
  - lia.
Qed.

(** ** The event queue *)

Section QueueFacts.
Implicit Types (e : VrrControllerEvent) (q src : list VrrControllerEvent).
Implicit Types (ty : VrrControllerEventType).

Lemma pq_push_perm e q : pq_push e q ≡ₚ e :: q.
Proof.
  induction q as [|x rest IH]; cbn; [done|].
  destruct (mWhenNs e <? mWhenNs x); [done|].
  rewrite IH. apply Permutation_swap.
Qed.

(** The loop of [dropEventLocked(event_type)] moves over exactly the
    entries of another kind. *)
Lemma dropEvent_loop_perm ty src q :
  dropEvent_loop ty src q ≡ₚ q ++ filter (λ e, mEventType e ≠ ty) src.
Proof.
  revert q. induction src as [|it rest IH]; intros q.
  - cbn. by rewrite app_nil_r.
  - rewrite filter_cons. cbn [dropEvent_loop]. rewrite IH.
    destruct (decide (mEventType it ≠ ty)) as [Hne|Heq].
    + rewrite pq_push_perm. apply Permutation_middle.
    + done.
Qed.

Lemma count_type_perm ty q q' : q ≡ₚ q' → count_type ty q = count_type ty q'.
Proof. intros Hp. unfold count_type. by rewrite Hp. Qed.

Lemma count_type_cons ty e q :
  count_type ty (e :: q)
  = ((if decide (mEventType e = ty) then 1 else 0) + count_type ty q)%nat.
Proof.
  unfold count_type. rewrite filter_cons.
  by destruct (decide (mEventType e = ty)).
Qed.

Lemma count_type_push ty e q :
  count_type ty (pq_push e q)
  = ((if decide (mEventType e = ty) then 1 else 0) + count_type ty q)%nat.
Proof. rewrite (count_type_perm _ _ _ (pq_push_perm e q)). apply count_type_cons. Qed.

Lemma count_type_filter_other ty ty' q :
  count_type ty (filter (λ e, mEventType e ≠ ty') q)
  = if decide (ty = ty') then 0%nat else count_type ty q.
Proof.
  induction q as [|x rest IH].
  - cbn. by destruct (decide (ty = ty')).
  - rewrite filter_cons. destruct (decide (mEventType x ≠ ty')) as [Hne|Heq].
    + rewrite !count_type_cons, IH.
      destruct (decide (ty = ty')) as [->|Hty]; [|done].
      by rewrite decide_False.
    + rewrite IH, count_type_cons.
      destruct (decide (ty = ty')) as [->|Hty]; [done|].
      rewrite decide_False; [done|]. intros Hx. apply Heq. congruence.
Qed.

Lemma count_type_dropEvent_loop ty ty' src :
  count_type ty (dropEvent_loop ty' src [])
  = if decide (ty = ty') then 0%nat else count_type ty src.
Proof.
  rewrite (count_type_perm _ _ _ (dropEvent_loop_perm ty' src [])). cbn.
  apply count_type_filter_other.
Qed.

Lemma count_type_pop ty q : (count_type ty (pq_pop q) ≤ count_type ty q)%nat.
Proof.
  destruct q as [|x rest]; [done|].
  rewrite count_type_cons. cbn [pq_pop tail]. lia.
Qed.

Lemma count_type_top_pop ty e q :
  pq_top q = Some e →
  count_type ty q
  = ((if decide (mEventType e = ty) then 1 else 0) + count_type ty (pq_pop q))%nat.
Proof.
  destruct q as [|x rest]; [done|].
  intros [= ->]. apply count_type_cons.
Qed.

Lemma pq_push_earliest_first e q : earliest_first q → earliest_first (pq_push e q).
Proof.
  unfold earliest_first. induction 1 as [|x rest Hrest IH Hx]; cbn.
  - repeat constructor.
  - destruct (Z.ltb_spec (mWhenNs e) (mWhenNs x)) as [Hlt|Hge].
    + constructor; [by constructor|].
      constructor; [lia|]. eapply Forall_impl; [exact Hx|]. cbn. lia.
    + constructor; [exact IH|].
      rewrite pq_push_perm. by constructor.
Qed.

Lemma pq_pop_earliest_first q : earliest_first q → earliest_first (pq_pop q).
Proof. unfold earliest_first. destruct 1; cbn; [constructor|done]. Qed.

Lemma dropEvent_loop_earliest_first ty src q :
  earliest_first q → earliest_first (dropEvent_loop ty src q).
Proof.
  revert q. induction src as [|it rest IH]; intros q Hq; cbn; [done|].
  apply IH. destruct (decide (mEventType it ≠ ty)); [|done].
  by apply pq_push_earliest_first.
Qed.

(** On such a queue [top] is an earliest event. *)
Lemma pq_top_earliest e x q :
  earliest_first q → pq_top q = Some e → x ∈ q → mWhenNs e ≤ mWhenNs x.
Proof.
  unfold earliest_first. destruct 1 as [|y rest _ Hy]; cbn; [done|].
  intros [= ->] [->|Hin]%elem_of_cons; [lia|].
  by eapply Forall_forall in Hy.
Qed.

Lemma count_type_nil ty : count_type ty [] = 0%nat.
Proof. done. Qed.

(** One call of [dropEventLocked(ty)] on the whole queue. *)
Lemma dropEvent_loop_filter ty q :
  dropEvent_loop ty q [] ≡ₚ filter (λ e, mEventType e ∉ [ty]) q.
Proof.
  rewrite dropEvent_loop_perm. cbn.
  erewrite list_filter_iff; [done|].
  intros e. cbn. rewrite not_elem_of_cons.
  pose proof (not_elem_of_nil (mEventType e)). tauto.
Qed.

Lemma filter_drop_another ty (tys : list VrrControllerEventType) q :
  filter (λ e, mEventType e ∉ [ty]) (filter (λ e, mEventType e ∉ tys) q)
  = filter (λ e, mEventType e ∉ ty :: tys) q.
Proof.
  rewrite list_filter_filter. apply list_filter_iff.
  intros e. cbn. rewrite !not_elem_of_cons.
  pose proof (not_elem_of_nil (mEventType e)). tauto.
Qed.

(** A further call of [dropEventLocked(ty)] after others. *)
Lemma dropEvent_loop_filter_more ty (tys : list VrrControllerEventType) src q :
  src ≡ₚ filter (λ e, mEventType e ∉ tys) q →
  dropEvent_loop ty src [] ≡ₚ filter (λ e, mEventType e ∉ ty :: tys) q.
Proof.
  intros Hsrc. rewrite dropEvent_loop_filter, Hsrc. by rewrite filter_drop_another.
Qed.

End QueueFacts.

(** ** The controller *)

Section ControllerFacts.
Context `{VrrHeader}.
Implicit Types (c : Controller) (env : WorkerEnv).

(** Unfolds the member functions and the monad down to tuples. *)
Ltac vrr_unfold :=
  unfold run_op, threadBody_iteration, threadBody_fromEnabledTest,
    threadBody_fromQueueTest, threadBody_fromDeadline, dispatchEvent,
    handleHibernate, handleStayHibernate, handleResume, handleCadenceChange,
    doFrameInsertionLocked_frames, doFrameInsertionLocked,
    getNextEventTimeLocked, onPresent, setActiveVrrConfiguration, setEnable,
    setVrrConfigurations, stopThread, reset, notifyExpectedPresent,
    setExpectedPresentTime, onVsync, dropEventLocked_type, dropEventLocked,
    postEvent, mVrrConfigs_at, if_then, LOG, emit, modify, get,
    state_after, effects_of, result_of, mbind, mret, M_bind, M_ret.

(** Decides the tests on states and event kinds left after unfolding. *)
Ltac vrr_cases := repeat (case_decide || case_bool_decide); try done; cbn.

(** One case split on a test that the unfolded code still contains. *)
Ltac vrr_split :=
  match goal with
  | |- context [decide ?P] => destruct (decide P)
  | |- context [bool_decide ?P] => destruct (bool_decide_reflect P)
  | |- context [match pq_top ?q with _ => _ end] => destruct (pq_top q) eqn:?
  | |- context [match mEventType ?e with _ => _ end] => destruct (mEventType e) eqn:?
  | |- context [match @lookup _ _ _ _ ?k ?m with _ => _ end] => destruct (m !! k) eqn:?
  | |- context [match mNextExpectedPresentTime ?r with _ => _ end] =>
      destruct (mNextExpectedPresentTime r) eqn:?
  | |- context [match mPendingCurrentPresentTime ?r with _ => _ end] =>
      destruct (mPendingCurrentPresentTime r) eqn:?
  | |- context [if ?b then _ else _] => destruct b eqn:?
  end; cbn.

(** C1, as amended: when the write of the command token fails,
    [doFrameInsertionLocked] emits the write and an error log line, returns
    [-1], and leaves the controller as it was: [mPendingFramesToInsert]
    keeps its value [N] and no [kNextFrameInsertion] is posted. *)
Theorem doFrameInsertionLocked_write_failure env c :
  0 < mPendingFramesToInsert c →
  writeOk env = false →
  doFrameInsertionLocked env c
  = (-1, c,
     [ WriteCommandString kNodeName PANEL_REFRESH_CTRL_FI;
       Log LOG_ERROR "VrrController: write command to file node failed." ]).
Proof.
  intros Hpos Hfail. vrr_unfold. cbn.
  destruct (Z.leb_spec (mPendingFramesToInsert c) 0) as [Hle|_]; [lia|].
  by rewrite Hfail.
Qed.

(** C7: [onPresent] without a pending expected-present descriptor logs a
    warning and returns the controller unchanged, with no other effect. *)
Theorem onPresent_without_descriptor now c :
  mPendingCurrentPresentTime (mRecord c) = None →
  onPresent now c
  = (tt, c,
     [ Log LOG_WARNING
         "VrrController: VrrController: Present without expected present time information" ]).
Proof. intros Hnone. vrr_unfold. cbn. by rewrite Hnone. Qed.

(** C6, as amended: [setEnable(b)] returns at once, without signalling the
    condition variable and without any change, when [b] is the current
    value of [mEnabled]; otherwise it stores [b], empties the event queue
    when [b] is [false], and signals the condition variable once. *)
Theorem setEnable_signals_on_change (b : bool) c :
  (mEnabled c = b → setEnable b c = (tt, c, []))
  ∧ (mEnabled c ≠ b →
     effects_of (setEnable b) c = [NotifyAll]
     ∧ state_after (setEnable b) c
       = set_mEventQueue (if b then mEventQueue c else []) (set_mEnabled b c)).
Proof.
  split; intros Hb; vrr_unfold; cbn.
  - by rewrite decide_True.
  - rewrite decide_False by done. destruct b; cbn; [|done].
    split; [done|]. by destruct c.
Qed.

(** C10: when [dispatchEvent] pops a [kNotifyExpectedPresentConfig] event
    in state [kHibernate], the state afterwards is [kRendering]; with no
    expected-present hint pending, [handleResume] only logs its warning, and
    the dispatch changes nothing but the popped event and the state. *)
Theorem dispatch_resume_sets_rendering env c event :
  mState c = kHibernate →
  pq_top (mEventQueue c) = Some event →
  mEventType event = kNotifyExpectedPresentConfig →
  mState (state_after (dispatchEvent env) c) = kRendering
  ∧ (mNextExpectedPresentTime (mRecord c) = None →
     (∀ c0, mNextExpectedPresentTime (mRecord c0) = None →
        handleResume c0
        = (tt, c0,
           [ Log LOG_WARNING
               "VrrController: resume occurs without the expected present timing information." ]))
     ∧ state_after (dispatchEvent env) c
       = set_mState kRendering (set_mEventQueue (pq_pop (mEventQueue c)) c)
     ∧ effects_of (dispatchEvent env) c
       = [ Log LOG_INFO "VrrController: handle event in state = ";
           Log LOG_WARNING
             "VrrController: resume occurs without the expected present timing information." ]).
Proof.
  intros Hst Htop Hty. split.
  - vrr_unfold. cbn. rewrite Htop, Hst, Hty. vrr_cases.
    by destruct (mNextExpectedPresentTime (mRecord c)).
  - intros Hnone. split; [|split].
    + intros c0 Hc0. vrr_unfold. cbn. by rewrite Hc0.
    + vrr_unfold. cbn. rewrite Htop, Hst, Hty. vrr_cases. by rewrite Hnone.
    + vrr_unfold. cbn. rewrite Htop, Hst, Hty. vrr_cases. by rewrite Hnone.
Qed.


(** C8: [setActiveVrrConfiguration(config)] with a [config] that is not a
    key of [mVrrConfigs] logs an error and returns the controller unchanged;
    with a [config] of the table it sets [mState] to [kRendering] and
    [mVrrActiveConfig] to [config], removes every queued
    [kRenderingTimeout], keeps every other event, and posts one
    [kRenderingTimeout] at [now + TimeoutNs] of that configuration (the
    [int64_t] sum, see [int64_add_exact]), so that exactly one is queued. *)
Theorem setActiveVrrConfiguration_effect now config c :
  (mVrrConfigs c !! config = None →
   setActiveVrrConfiguration now config c
   = (tt, c, [ Log LOG_ERROR "VrrController: Set an undefined active configuration" ]))
  ∧ (∀ vrrConfig, mVrrConfigs c !! config = Some vrrConfig →
     let c' := state_after (setActiveVrrConfiguration now config) c in
     let fresh :=
       {| mEventType := kRenderingTimeout;
          mWhenNs := int64_add now (TimeoutNs (notifyExpectedPresentConfig vrrConfig)) |} in
     mState c' = kRendering
     ∧ mVrrActiveConfig c' = config
     ∧ mEventQueue c'
       ≡ₚ fresh :: filter (λ e, mEventType e ∉ [kRenderingTimeout]) (mEventQueue c)
     ∧ count_type kRenderingTimeout (mEventQueue c') = 1%nat
     ∧ mVrrConfigs c' = mVrrConfigs c
     ∧ mRecord c' = mRecord c
     ∧ mPendingFramesToInsert c' = mPendingFramesToInsert c
     ∧ effects_of (setActiveVrrConfiguration now config) c = [NotifyAll]).
Proof.
  split.
  - intros Hnone. vrr_unfold. cbn. by rewrite Hnone.
  - intros vrrConfig Hsome c' fresh. subst c' fresh.
    vrr_unfold. cbn. rewrite Hsome. cbn. rewrite Hsome. cbn.
    repeat split.
    + by rewrite pq_push_perm, dropEvent_loop_filter.
    + rewrite count_type_push, count_type_dropEvent_loop. cbn.
      by rewrite !decide_True.
Qed.

(** C5: [onPresent] with a pending descriptor and the active configuration
    in the table stores the descriptor in the present history ring and
    clears it; from [kHibernate] it moves to [kRendering] and drops every
    [kHibernateTimeout]; in every state it drops every [kRenderingTimeout]
    and [kNextFrameInsertion], keeps the other events, and posts one
    [kRenderingTimeout] at [now + TimeoutNs] of the active configuration. *)
Theorem onPresent_effect now c pending vrrConfig :
  mPendingCurrentPresentTime (mRecord c) = Some pending →
  mVrrConfigs c !! mVrrActiveConfig c = Some vrrConfig →
  let c' := state_after (onPresent now) c in
  let fresh :=
    {| mEventType := kRenderingTimeout;
       mWhenNs := int64_add now (TimeoutNs (notifyExpectedPresentConfig vrrConfig)) |} in
  let dropped :=
    kNextFrameInsertion :: kRenderingTimeout
    :: (if decide (mState c = kHibernate) then [kHibernateTimeout] else []) in
  mPresentHistory (mRecord c') = ring_next_assign pending (mPresentHistory (mRecord c))
  ∧ mPendingCurrentPresentTime (mRecord c') = None
  ∧ mState c' = (if decide (mState c = kHibernate) then kRendering else mState c)
  ∧ mEventQueue c' ≡ₚ fresh :: filter (λ e, mEventType e ∉ dropped) (mEventQueue c)
  ∧ count_type kRenderingTimeout (mEventQueue c') = 1%nat
  ∧ count_type kNextFrameInsertion (mEventQueue c') = 0%nat
  ∧ (mState c = kHibernate → count_type kHibernateTimeout (mEventQueue c') = 0%nat).
Proof.
  intros Hp Hcfg c' fresh dropped. subst c' fresh dropped.
  vrr_unfold. cbn. rewrite Hp. cbn.
  case_bool_decide as Hst; cbn; rewrite ?Hcfg; cbn.
  all: rewrite ?decide_True by done; rewrite ?decide_False by done.
  all: repeat split; try done.
  all: try (rewrite pq_push_perm; apply Permutation_skip;
            repeat (apply dropEvent_loop_filter || apply dropEvent_loop_filter_more)).
  all: intros; rewrite count_type_push, !count_type_dropEvent_loop; by vrr_cases.
Qed.

(** *** What one step does to the counted resources *)

Lemma exec_count_RenderingTimeout op c :
  (count_type kRenderingTimeout (mEventQueue (exec op c))
   ≤ Nat.max 1 (count_type kRenderingTimeout (mEventQueue c)))%nat.
Proof.
  pose proof (count_type_pop kRenderingTimeout (mEventQueue c)) as Hpop.
  destruct op; unfold exec; vrr_unfold; cbn.
  all: repeat vrr_split.
  all: rewrite ?count_type_push, ?count_type_dropEvent_loop, ?count_type_nil; cbn.
  all: repeat vrr_split; try done.
  all: lia.
Qed.


(** Records, for the event just popped, how it is counted in the queue. *)
Ltac note_top ty :=
  repeat match goal with
  | Htop : pq_top ?q = Some ?v |- _ =>
      let Hc := fresh "Hcount" in
      pose proof (count_type_top_pop ty v q Htop) as Hc;
      destruct (decide (mEventType v = ty)); [|];
      revert Htop
  end; intros.

(** A step adds a [kNextFrameInsertion] only when it enters hibernation,
    and then only one. *)
Lemma exec_count_NextFrameInsertion op c :
  let c' := exec op c in
  (count_type kNextFrameInsertion (mEventQueue c')
   ≤ count_type kNextFrameInsertion (mEventQueue c))%nat
  ∨ (mState c = kRendering ∧ mState c' = kHibernate
     ∧ (count_type kNextFrameInsertion (mEventQueue c')
        ≤ count_type kNextFrameInsertion (mEventQueue c) + 1)%nat).
Proof.
  destruct op; unfold exec; vrr_unfold; cbn.
  all: repeat vrr_split.
  all: rewrite ?count_type_push, ?count_type_dropEvent_loop, ?count_type_nil; cbn.
  all: repeat vrr_split; try done.
  all: note_top kNextFrameInsertion.
  all: try (left; lia).
  all: right; repeat split; try done; lia.
Qed.

Lemma exec_earliest_first op c :
  earliest_first (mEventQueue c) → earliest_first (mEventQueue (exec op c)).
Proof.
  intros Hq. destruct op; unfold exec; vrr_unfold; cbn.
  all: repeat vrr_split.
  all: repeat first
         [ assumption
         | apply pq_push_earliest_first
         | apply dropEvent_loop_earliest_first
         | apply pq_pop_earliest_first
         | apply SSorted_nil ].
Qed.

(** The model of the queue is consistent: in every reachable state the
    event that the worker pops is one with the smallest [mWhenNs]. *)
Lemma reachable_top_earliest c e x :
  reachable c → pq_top (mEventQueue c) = Some e → x ∈ mEventQueue c →
  mWhenNs e ≤ mWhenNs x.
Proof.
  intros Hreach. apply pq_top_earliest.
  induction Hreach as [activeConfig|c op _ IH]; [apply SSorted_nil|].
  by apply exec_earliest_first.
Qed.

(** Whatever its entry point, a pass of the worker changes the controller
    only through [dispatchEvent]. *)
Lemma worker_pass_idle_or_dispatch op c :
  is_public op = false →
  exec op c = c
  ∨ ∃ env, exec op c = state_after (dispatchEvent env) c.
Proof.
  destruct op; try done; intros _.
  all: unfold exec, run_op, threadBody_iteration, threadBody_fromEnabledTest,
         threadBody_fromQueueTest, threadBody_fromDeadline,
         getNextEventTimeLocked, state_after, get, LOG, emit, mbind, mret,
         M_bind, M_ret; cbn.
  all: repeat vrr_split; try (by left).
  all: right; exists env; by destruct (dispatchEvent env c) as [[r c'] out].
Qed.

Lemma doFrameInsertionLocked_pending env c :
  let c' := state_after (doFrameInsertionLocked env) c in
  mPendingFramesToInsert c' = mPendingFramesToInsert c
  ∨ (0 < mPendingFramesToInsert c
     ∧ mPendingFramesToInsert c' = mPendingFramesToInsert c - 1).
Proof.
  vrr_unfold; cbn. repeat vrr_split; try (by left).
  all: right; split; [lia|done].
Qed.

Lemma handleHibernate_pending env c :
  mPendingFramesToInsert (state_after (handleHibernate env) c)
  = mPendingFramesToInsert
      (state_after (doFrameInsertionLocked env)
                   (set_mPendingFramesToInsert kNumFramesToInsert c)).
Proof. vrr_unfold; cbn. by repeat vrr_split. Qed.

Lemma exec_public_pending op c :
  is_public op = true →
  mPendingFramesToInsert (exec op c) = mPendingFramesToInsert c.
Proof.
  destruct op; try done; intros _; unfold exec; vrr_unfold; cbn.
  all: by repeat vrr_split.
Qed.

Lemma exec_worker_pending op c :
  is_public op = false →
  let c' := exec op c in
  mPendingFramesToInsert c' = mPendingFramesToInsert c
  ∨ (0 < mPendingFramesToInsert c
     ∧ mPendingFramesToInsert c' = mPendingFramesToInsert c - 1)
  ∨ mPendingFramesToInsert c' = kNumFramesToInsert
  ∨ mPendingFramesToInsert c' = kNumFramesToInsert - 1.
Proof.
  destruct op; try done; intros _; unfold exec; vrr_unfold; cbn.
  all: repeat vrr_split; try (by left); try (by right; right; left);
       try (by right; right; right).
  all: right; left; split; [lia|done].
Qed.

Lemma reachable_pending_nonneg c : reachable c → 0 ≤ mPendingFramesToInsert c.
Proof.
  induction 1 as [activeConfig|c op _ IH]; [done|].
  destruct (is_public op) eqn:Hpub.
  - by rewrite exec_public_pending.
  - destruct (exec_worker_pending op c Hpub) as [->|[[? ->]|[->| ->]]];
      unfold kNumFramesToInsert; lia.
Qed.

Lemma reachable_exec_trace ops c : reachable c → reachable (exec_trace ops c).
Proof.
  revert c. induction ops as [|op ops IH]; intros c Hc; [done|].
  cbn. apply IH. by constructor.
Qed.

Lemma reachable_single_RenderingTimeout c :
  reachable c → (count_type kRenderingTimeout (mEventQueue c) ≤ 1)%nat.
Proof.
  induction 1 as [activeConfig|c op _ IH].
  { cbn. rewrite count_type_nil. lia. }
  pose proof (exec_count_RenderingTimeout op c). lia.
Qed.

(** C9: [mPendingFramesToInsert] is never negative in a reachable state;
    [doFrameInsertionLocked()] leaves it unchanged or, when it is positive,
    lowers it by exactly one; the public operations and the handlers
    [handleCadenceChange], [handleResume] and [handleStayHibernate] leave it
    unchanged; [handleHibernate] sets it to the burst size
    [kNumFramesToInsert], which is not negative, and then runs
    [doFrameInsertionLocked()]; so a worker pass leaves it unchanged, lowers
    it by one from a positive value, or leaves the burst size or the burst
    size less one. *)
Theorem pending_frames_discipline :
  (∀ c, reachable c → 0 ≤ mPendingFramesToInsert c)
  ∧ (∀ env c,
       let c' := state_after (doFrameInsertionLocked env) c in
       mPendingFramesToInsert c' = mPendingFramesToInsert c
       ∨ (0 < mPendingFramesToInsert c
          ∧ mPendingFramesToInsert c' = mPendingFramesToInsert c - 1))
  ∧ (∀ op c, is_public op = true →
       mPendingFramesToInsert (exec op c) = mPendingFramesToInsert c)
  ∧ (∀ env c,
       mPendingFramesToInsert (state_after handleCadenceChange c)
       = mPendingFramesToInsert c
       ∧ mPendingFramesToInsert (state_after handleResume c)
         = mPendingFramesToInsert c
       ∧ mPendingFramesToInsert (state_after (handleStayHibernate env) c)
         = mPendingFramesToInsert c)
  ∧ (∀ env c,
       0 ≤ kNumFramesToInsert
       ∧ mPendingFramesToInsert (state_after (handleHibernate env) c)
         = mPendingFramesToInsert
             (state_after (doFrameInsertionLocked env)
                          (set_mPendingFramesToInsert kNumFramesToInsert c)))
  ∧ (∀ op c, is_public op = false →
       let c' := exec op c in
       mPendingFramesToInsert c' = mPendingFramesToInsert c
       ∨ (0 < mPendingFramesToInsert c
          ∧ mPendingFramesToInsert c' = mPendingFramesToInsert c - 1)
       ∨ mPendingFramesToInsert c' = kNumFramesToInsert
       ∨ mPendingFramesToInsert c' = kNumFramesToInsert - 1).
Proof.
  split; [apply reachable_pending_nonneg|].
  split; [apply doFrameInsertionLocked_pending|].
  split; [apply exec_public_pending|].
  split.
  { intros env c. repeat split; vrr_unfold; cbn; by repeat vrr_split. }
  split; [|apply exec_worker_pending].
  intros env c. split; [done|apply handleHibernate_pending].
Qed.

(** *** Further properties of the member functions *)

(** X6: [dropEventLocked(event_type)] removes exactly the events of that
    kind: the new queue holds, up to permutation, the old events of the
    other kinds, no event of the kind is left, the count of every other
    kind is unchanged, nothing else of the controller changes and nothing
    is emitted. *)
Theorem dropEventLocked_type_effect ty c :
  let c' := state_after (dropEventLocked_type ty) c in
  mEventQueue c' ≡ₚ filter (λ e, mEventType e ≠ ty) (mEventQueue c)
  ∧ count_type ty (mEventQueue c') = 0%nat
  ∧ (∀ ty', ty' ≠ ty →
       count_type ty' (mEventQueue c') = count_type ty' (mEventQueue c))
  ∧ c' = set_mEventQueue (mEventQueue c') c
  ∧ effects_of (dropEventLocked_type ty) c = [].
Proof.
  vrr_unfold; cbn. repeat split.
  - by rewrite dropEvent_loop_perm.
  - rewrite count_type_dropEvent_loop. by rewrite decide_True.
  - intros ty' Hne. rewrite count_type_dropEvent_loop. by rewrite decide_False.
Qed.


Lemma string_append_assoc (s1 s2 s3 : string) :
  String.append (String.append s1 s2) s3 = String.append s1 (String.append s2 s3).
Proof.
  induction s1 as [|a s1 IH]; [done|].
  change (String a (String.append (String.append s1 s2) s3)
          = String a (String.append s1 (String.append s2 s3))).
  by f_equal.
Qed.

Lemma string_append_nil_r (s : string) : String.append s EmptyString = s.
Proof.
  induction s as [|a s IH]; [done|].
  change (String a (String.append s EmptyString) = String a s). by f_equal.
Qed.

Lemma dumpEvent_loop_text toString src q content :
  (dumpEvent_loop toString src q content).2
  = String.append content (dump_text toString src).
Proof.
  revert q content. induction src as [|it rest IH]; intros q content;
    cbn [dumpEvent_loop dump_text snd].
  - by rewrite string_append_nil_r.
  - rewrite IH. by rewrite !string_append_assoc.
Qed.

Lemma dumpEvent_loop_perm toString src q content :
  (dumpEvent_loop toString src q content).1 ≡ₚ q ++ src.
Proof.
  revert q content. induction src as [|it rest IH]; intros q content; cbn.
  - by rewrite app_nil_r.
  - rewrite IH, pq_push_perm. apply Permutation_middle.
Qed.

(** X7: [dumpEventQueueLocked] returns one line per queued event, in the
    order in which the queue delivers them, and is not destructive: the
    queue afterwards holds the same events (up to permutation), nothing
    else of the controller changes and nothing is emitted.  An empty queue
    gives the empty text. *)
Theorem dumpEventQueueLocked_effect toString c :
  let c' := state_after (dumpEventQueueLocked toString) c in
  result_of (dumpEventQueueLocked toString) c = dump_text toString (mEventQueue c)
  ∧ mEventQueue c' ≡ₚ mEventQueue c
  ∧ c' = set_mEventQueue (mEventQueue c') c
  ∧ effects_of (dumpEventQueueLocked toString) c = [].
Proof.
  intros c'. subst c'. unfold dumpEventQueueLocked. vrr_unfold. cbn.
  destruct (mEventQueue c) as [|e0 q0] eqn:Hq; cbn.
  { rewrite Hq. repeat split; try done. rewrite <- Hq. by destruct c. }
  pose proof (dumpEvent_loop_text toString (e0 :: q0) [] EmptyString) as Htext.
  pose proof (dumpEvent_loop_perm toString (e0 :: q0) [] EmptyString) as Hperm.
  cbn [dumpEvent_loop] in Htext, Hperm.
  destruct (dumpEvent_loop _ _ _ _) as [q content]. cbn in *.
  repeat split; done.
Qed.

(** X8: [reset()] empties the event queue; it leaves [mState], [mEnabled],
    [mThreadExit], the configuration table, the active configuration and
    [mPendingFramesToInsert] as they were and does not signal the worker; a
    second [reset()] changes nothing more, and a pass of the worker from the
    top of its loop after [reset()] changes nothing and emits nothing. *)
Theorem reset_effect env c :
  let c' := state_after reset c in
  mEventQueue c' = []
  ∧ mState c' = mState c ∧ mEnabled c' = mEnabled c ∧ mThreadExit c' = mThreadExit c
  ∧ mVrrConfigs c' = mVrrConfigs c ∧ mVrrActiveConfig c' = mVrrActiveConfig c
  ∧ mPendingFramesToInsert c' = mPendingFramesToInsert c
  ∧ effects_of reset c = []
  ∧ state_after reset c' = c'
  ∧ state_after (threadBody_iteration env) c' = c'
  ∧ effects_of (threadBody_iteration env) c' = [].
Proof.
  vrr_unfold; cbn. repeat split; by repeat vrr_split.
Qed.

(** No step clears [mThreadExit]. *)
Lemma exec_keeps_mThreadExit op c :
  mThreadExit c = true → mThreadExit (exec op c) = true.
Proof.
  intros Hexit. destruct op; unfold exec; vrr_unfold; cbn.
  all: by repeat vrr_split.
Qed.

(** X9: [stopThread()] keeps the queued events, and its request is final:
    whatever steps follow, [mThreadExit] stays set and a pass of the worker
    from the top of its loop breaks out without touching the controller. *)
Theorem stopThread_final c ops env :
  let c' := exec_trace ops (state_after stopThread c) in
  mEventQueue (state_after stopThread c) = mEventQueue c
  ∧ mThreadExit c' = true
  ∧ threadBody_iteration env c' = (LoopBreak, c', []).
Proof.
  intros c'. split; [done|].
  assert (Hexit : mThreadExit c' = true).
  { subst c'. generalize (state_after stopThread c), (eq_refl : mThreadExit (state_after stopThread c) = true).
    induction ops as [|op ops IH]; intros c0 Hc0; [done|].
    cbn. apply IH. by apply exec_keeps_mThreadExit. }
  split; [done|]. vrr_unfold; cbn. by rewrite Hexit.
Qed.



(** X11: the state after [dispatchEvent] depends only on the state before
    and on the kind of the popped event, not on the write result or on the
    pending hints: [kRendering] goes to [kHibernate] on [kRenderingTimeout]
    and stays otherwise; any other state goes to [kRendering] on
    [kNotifyExpectedPresentConfig] and stays otherwise.  The pass breaks
    the loop exactly when the queue is empty. *)
Theorem dispatchEvent_next_state env c :
  mState (state_after (dispatchEvent env) c)
  = match pq_top (mEventQueue c) with
    | None => mState c
    | Some e =>
        if decide (mState c = kRendering) then
          if decide (mEventType e = kRenderingTimeout) then kHibernate else kRendering
        else if decide (mEventType e = kNotifyExpectedPresentConfig) then kRendering
        else mState c
    end
  ∧ result_of (dispatchEvent env) c
    = (if pq_empty (mEventQueue c) then LoopBreak else LoopContinue).
Proof.
  vrr_unfold; cbn. destruct (mEventQueue c) as [|e q]; cbn; [done|].
  destruct (decide (mState c = kRendering)) as [Hr|Hr]; cbn.
  - destruct (mEventType e) eqn:Hty; cbn; repeat vrr_split; split; congruence.
  - destruct (mEventType e) eqn:Hty; cbn; repeat vrr_split; split; congruence.
Qed.

(** X12: [kHibernate] is entered only by the worker, from [kRendering],
    when the event it pops is a [kRenderingTimeout]; [kDisable] is entered
    only by [stopThread()] (in particular not by [setEnable(false)]). *)
Theorem state_entry_points op c :
  (mState (exec op c) = kHibernate →
   mState c = kHibernate
   ∨ (mState c = kRendering ∧ is_public op = false
      ∧ mEventType <$> pq_top (mEventQueue c) = Some kRenderingTimeout))
  ∧ (mState (exec op c) = kDisable → mState c = kDisable ∨ op = CallStopThread).
Proof.
  split.
  - destruct op; unfold exec; vrr_unfold; cbn.
    all: repeat vrr_split; try done; try (by left).
    all: try (intros _; right; repeat split; first [done | congruence]).
    all: try (intros ->; by left).
    all: try congruence.
    all: try (intros; left; congruence).
  - destruct op; unfold exec; vrr_unfold; cbn.
    all: try (by right).
    all: repeat vrr_split; try done; try (by left).
    all: try (intros ->; by left).
    all: try congruence.
    all: try (intros; left; congruence).
Qed.


Lemma elem_of_pq_push e q : e ∈ pq_push e q.
Proof. rewrite pq_push_perm. by left. Qed.

Lemma elem_of_pq_push_old e x q : x ∈ q → x ∈ pq_push e q.
Proof. rewrite pq_push_perm. by right. Qed.

(** X13: [doFrameInsertionLocked()] writes to the panel node once when
    the counter is positive and never otherwise; it returns 1 when the
    write was made and succeeded and -1 otherwise; the counter goes down by
    one exactly on a successful write; a [kNextFrameInsertion] is posted
    exactly when the write succeeded and the counter was above one; events
    of other kinds, [mState] and [mRecord] are untouched. *)
Theorem doFrameInsertionLocked_effect env c :
  let p := mPendingFramesToInsert c in
  let c' := state_after (doFrameInsertionLocked env) c in
  count_writes (effects_of (doFrameInsertionLocked env) c)
  = (if 0 <? p then 1%nat else 0%nat)
  ∧ result_of (doFrameInsertionLocked env) c
    = (if (0 <? p) && writeOk env then 1 else -1)
  ∧ mPendingFramesToInsert c' = (if (0 <? p) && writeOk env then p - 1 else p)
  ∧ count_type kNextFrameInsertion (mEventQueue c')
    = Nat.add (count_type kNextFrameInsertion (mEventQueue c))
              (if (1 <? p) && writeOk env then 1%nat else 0%nat)
  ∧ (∀ ty, ty ≠ kNextFrameInsertion →
       count_type ty (mEventQueue c') = count_type ty (mEventQueue c))
  ∧ mState c' = mState c ∧ mRecord c' = mRecord c.
Proof.
  intros p c'. subst p c'. vrr_unfold; cbn.
  destruct (Z.leb_spec (mPendingFramesToInsert c) 0) as [Hle|Hgt];
    destruct (Z.ltb_spec 0 (mPendingFramesToInsert c)) as [?|?]; try lia; cbn.
  { destruct (Z.ltb_spec 1 (mPendingFramesToInsert c)); try lia; cbn.
    repeat split; try done; try lia. }
  destruct (writeOk env) eqn:Hw; cbn.
  - destruct (Z.ltb_spec 0 (mPendingFramesToInsert c - 1)) as [?|?];
      destruct (Z.ltb_spec 1 (mPendingFramesToInsert c)) as [?|?]; try lia; cbn.
    + destruct (mVrrConfigs c !! mVrrActiveConfig c); cbn; repeat split; try done.
      all: try (rewrite count_type_push; cbn; rewrite ?decide_True by done; lia).
      all: intros ty Hty; rewrite count_type_push; cbn; by rewrite decide_False.
    + repeat split; try done; try lia.
  - rewrite andb_false_r. repeat split; try done; try lia.
Qed.

(** X14: dispatching a [kRenderingTimeout] in [kRendering] always ends in
    [kHibernate], whether the panel write succeeds or not: the timeout is
    consumed, one write is attempted, a [kHibernateTimeout] is posted at
    [nowTimeout + kDefaultWakeUpTimeInPowerSaving]; on a successful write
    the counter is 1 and a [kNextFrameInsertion] is posted at
    [nowInsertion + minFrameIntervalNs] of the active configuration, on a
    failed write the counter is 2 and none is posted. *)
Theorem dispatch_rendering_timeout env c e :
  mState c = kRendering →
  pq_top (mEventQueue c) = Some e →
  mEventType e = kRenderingTimeout →
  let c' := state_after (dispatchEvent env) c in
  let vrrConfig := default VrrConfig_default (mVrrConfigs c !! mVrrActiveConfig c) in
  mState c' = kHibernate
  ∧ mPendingFramesToInsert c' = (if writeOk env then 1 else 2)
  ∧ count_writes (effects_of (dispatchEvent env) c) = 1%nat
  ∧ count_type kHibernateTimeout (mEventQueue c')
    = S (count_type kHibernateTimeout (mEventQueue c))
  ∧ count_type kNextFrameInsertion (mEventQueue c')
    = Nat.add (count_type kNextFrameInsertion (mEventQueue c))
              (if writeOk env then 1%nat else 0%nat)
  ∧ S (count_type kRenderingTimeout (mEventQueue c'))
    = count_type kRenderingTimeout (mEventQueue c)
  ∧ {| mEventType := kHibernateTimeout;
       mWhenNs := int64_add (nowTimeout env) kDefaultWakeUpTimeInPowerSaving |}
    ∈ mEventQueue c'
  ∧ (writeOk env = true →
     {| mEventType := kNextFrameInsertion;
        mWhenNs := int64_add (nowInsertion env) (minFrameIntervalNs vrrConfig) |}
     ∈ mEventQueue c').
Proof.
  intros Hst Htop Hty c' vrrConfig. subst c' vrrConfig.
  pose proof (count_type_top_pop kHibernateTimeout _ _ Htop) as Hht.
  pose proof (count_type_top_pop kNextFrameInsertion _ _ Htop) as Hnfi.
  pose proof (count_type_top_pop kRenderingTimeout _ _ Htop) as Hrt.
  rewrite Hty in Hht, Hnfi, Hrt.
  rewrite decide_False in Hht by done. rewrite decide_False in Hnfi by done.
  rewrite decide_True in Hrt by done.
  vrr_unfold; cbn. rewrite Htop; cbn. rewrite decide_True by done. cbn.
  rewrite Hty; unfold kNumFramesToInsert.
  change (0 <? 2 - 1) with true. change (2 - 1) with 1. vrr_cases.
  destruct (writeOk env) eqn:Hw; cbn.
  - destruct (mVrrConfigs c !! mVrrActiveConfig c) eqn:Hcfg; cbn.
    all: rewrite ?count_type_push; cbn.
    all: repeat case_decide; try done.
    all: repeat split; try done; try lia.
    all: try apply elem_of_pq_push.
    all: intros _; apply elem_of_pq_push_old, elem_of_pq_push.
  - rewrite ?count_type_push; cbn.
    repeat case_decide; try done.
    repeat split; try done; try lia. apply elem_of_pq_push.
Qed.

Lemma exec_pending_upper op c :
  mPendingFramesToInsert c ≤ kNumFramesToInsert →
  mPendingFramesToInsert (exec op c) ≤ kNumFramesToInsert.
Proof.
  intros Hle. destruct (is_public op) eqn:Hpub.
  - by rewrite exec_public_pending.
  - destruct (exec_worker_pending op c Hpub) as [->|[[? ->]|[->| ->]]];
      unfold kNumFramesToInsert in *; lia.
Qed.

(** X15: in every reachable state [mPendingFramesToInsert] lies between 0
    and the burst size [kNumFramesToInsert]. *)
Theorem reachable_pending_bounded c :
  reachable c → 0 ≤ mPendingFramesToInsert c ≤ kNumFramesToInsert.
Proof.
  intros Hreach. split; [by apply reachable_pending_nonneg|].
  induction Hreach as [activeConfig|c op _ IH]; [done|].
  by apply exec_pending_upper.
Qed.


(** X16: [onPresent] with a pending descriptor while the active
    configuration is not in the table adds that key to [mVrrConfigs] with
    the default [VrrConfig_t] (the effect of [mVrrConfigs[mVrrActiveConfig]])
    and posts the [kRenderingTimeout] with the default's [TimeoutNs];
    afterwards [setActiveVrrConfiguration] accepts that id. *)
Theorem onPresent_inserts_missing_config now c pending :
  mPendingCurrentPresentTime (mRecord c) = Some pending →
  mVrrConfigs c !! mVrrActiveConfig c = None →
  let c' := state_after (onPresent now) c in
  mVrrConfigs c' = <[mVrrActiveConfig c := VrrConfig_default]> (mVrrConfigs c)
  ∧ {| mEventType := kRenderingTimeout;
       mWhenNs := int64_add now
                    (TimeoutNs (notifyExpectedPresentConfig VrrConfig_default)) |}
    ∈ mEventQueue c'
  ∧ (∀ now', effects_of (setActiveVrrConfiguration now' (mVrrActiveConfig c)) c'
             = [NotifyAll]).
Proof.
  intros Hp Hcfg c'. subst c'. vrr_unfold; cbn. rewrite Hp; cbn.
  destruct (bool_decide_reflect (mState c = kHibernate)); cbn; rewrite Hcfg; cbn.
  all: repeat split; try apply elem_of_pq_push.
  all: intros now'; repeat (rewrite lookup_insert_eq; cbn); done.
Qed.

(** X17: apart from [setVrrConfigurations], a step leaves the
    configuration table as it was or adds one absent key with the default
    [VrrConfig_t]; it never removes or changes an entry. *)
Theorem mVrrConfigs_only_grows op c :
  (∀ configs, op ≠ CallSetVrrConfigurations configs) →
  mVrrConfigs (exec op c) = mVrrConfigs c
  ∨ (∃ key, mVrrConfigs c !! key = None
            ∧ mVrrConfigs (exec op c) = <[key := VrrConfig_default]> (mVrrConfigs c)).
Proof.
  intros Hop. destruct op; unfold exec; vrr_unfold; cbn.
  all: try (by left).
  all: try (by destruct (Hop configs)).
  all: repeat vrr_split; try (by left); try done.
  all: right; eexists; split; [eassumption|done].
Qed.

(** An event strictly earlier than every queued one is the next one
    delivered. *)
Lemma pq_push_front e q :
  Forall (λ x, mWhenNs e < mWhenNs x) q → pq_push e q = e :: q.
Proof.
  destruct 1 as [|x rest Hx _]; cbn; [done|].
  by destruct (Z.ltb_spec (mWhenNs e) (mWhenNs x)); [|lia].
Qed.

(** X18: in [kHibernate], [notifyExpectedPresent] at a time earlier than
    every queued event records the hint and signals the worker, and the
    dispatch that follows consumes the hint without a warning and moves to
    [kRendering]; the events queued before (among them the pending
    [kHibernateTimeout] and [kNextFrameInsertion]) are all still queued (the
    queue is the old one up to permutation) and the frame counter is
    unchanged. *)
Theorem notify_then_dispatch_resumes now timestamp frameIntervalNs env c :
  mState c = kHibernate →
  Forall (λ x, now < mWhenNs x) (mEventQueue c) →
  let c1 := state_after (notifyExpectedPresent now timestamp frameIntervalNs) c in
  let c2 := state_after (dispatchEvent env) c1 in
  effects_of (notifyExpectedPresent now timestamp frameIntervalNs) c = [NotifyAll]
  ∧ mNextExpectedPresentTime (mRecord c1)
    = Some {| config := mVrrActiveConfig c; time := timestamp;
              duration := frameIntervalNs |}
  ∧ mState c2 = kRendering
  ∧ mNextExpectedPresentTime (mRecord c2) = None
  ∧ mEventQueue c2 ≡ₚ mEventQueue c
  ∧ mPendingFramesToInsert c2 = mPendingFramesToInsert c
  ∧ effects_of (dispatchEvent env) c1
    = [ Log LOG_INFO "VrrController: handle event in state = " ].
Proof.
  intros Hst Hq c1 c2. subst c1 c2. vrr_unfold; cbn.
  rewrite (pq_push_front {| mEventType := kNotifyExpectedPresentConfig;
                            mWhenNs := now |}) by done. cbn.
  rewrite Hst. by vrr_cases.
Qed.

Lemma onPresent_clears_descriptor now c :
  mPendingCurrentPresentTime (mRecord (state_after (onPresent now) c)) = None.
Proof. vrr_unfold; cbn. by repeat vrr_split. Qed.

(** X19: a descriptor is consumed by one present: whatever the first
    [onPresent] did, a second [onPresent] right after it only logs the
    warning and changes nothing. *)
Theorem onPresent_twice now1 now2 c :
  onPresent now2 (state_after (onPresent now1) c)
  = (tt, state_after (onPresent now1) c,
     [ Log LOG_WARNING
         "VrrController: VrrController: Present without expected present time information" ]).
Proof.
  pose proof (onPresent_clears_descriptor now1 c) as Hnone.
  unfold onPresent at 1. unfold get, LOG, emit, mbind, M_bind. cbn.
  by rewrite Hnone.
Qed.

(** X20: of two [setExpectedPresentTime] calls only the later one counts,
    and the [onPresent] that follows stores exactly that descriptor, with
    the active configuration, in the present history, clears it, leaves one
    [kRenderingTimeout] and no [kNextFrameInsertion] queued, keeps the
    expected-present hint, signals the worker, and ends in [kRendering]
    unless the state was [kDisable], which it keeps. *)
Theorem setExpectedPresentTime_then_onPresent ts0 fi0 ts fi now c :
  let c1 := state_after (setExpectedPresentTime ts fi)
              (state_after (setExpectedPresentTime ts0 fi0) c) in
  let c' := state_after (onPresent now) c1 in
  c1 = state_after (setExpectedPresentTime ts fi) c
  ∧ mPresentHistory (mRecord c')
    = ring_next_assign {| config := mVrrActiveConfig c; time := ts; duration := fi |}
                       (mPresentHistory (mRecord c))
  ∧ mPendingCurrentPresentTime (mRecord c') = None
  ∧ mNextExpectedPresentTime (mRecord c') = mNextExpectedPresentTime (mRecord c)
  ∧ count_type kRenderingTimeout (mEventQueue c') = 1%nat
  ∧ count_type kNextFrameInsertion (mEventQueue c') = 0%nat
  ∧ mState c' = (if decide (mState c = kDisable) then kDisable else kRendering)
  ∧ NotifyAll ∈ effects_of (onPresent now) c1.
Proof.
  intros c1 c'. subst c1 c'. vrr_unfold; cbn.
  destruct (bool_decide_reflect (mState c = kHibernate)) as [Hst|Hst]; cbn.
  all: destruct (mVrrConfigs c !! mVrrActiveConfig c); cbn.
  all: rewrite ?count_type_push, ?count_type_dropEvent_loop; cbn.
  all: repeat case_decide; try done; try congruence.
  all: repeat split; try done; try (by destruct (mState c)).
  all: repeat first [apply list_elem_of_here | apply list_elem_of_further].
Qed.

(** X21: [setEnable(b)] twice is [setEnable(b)] once, the second call
    emitting nothing; [setEnable] never changes [mState] or
    [mPendingFramesToInsert]; disabling an enabled controller and enabling
    it again leaves the queue empty. *)
Theorem setEnable_compose (b : bool) c :
  state_after (setEnable b) (state_after (setEnable b) c) = state_after (setEnable b) c
  ∧ effects_of (setEnable b) (state_after (setEnable b) c) = []
  ∧ mPendingFramesToInsert (state_after (setEnable b) c) = mPendingFramesToInsert c
  ∧ mState (state_after (setEnable b) c) = mState c
  ∧ (mEnabled c = true →
     mEventQueue (state_after (setEnable true) (state_after (setEnable false) c)) = []).
Proof.
  vrr_unfold; cbn. destruct b, (mEnabled c) eqn:He; cbn.
  all: rewrite ?He; cbn; repeat split; try done.
  all: repeat vrr_split; try done.
Qed.

(** X22: a public operation that does not signal the condition variable
    leaves the event queue as it was or empties it: every call that posts
    an event wakes the worker. *)
Theorem public_post_signals op c :
  is_public op = true →
  NotifyAll ∈ effects_of (run_op op) c
  ∨ mEventQueue (exec op c) = mEventQueue c
  ∨ mEventQueue (exec op c) = [].
Proof.
  destruct op; try done; intros _; unfold exec; vrr_unfold; cbn.
  all: repeat vrr_split.
  all: try (right; left; reflexivity).
  all: try (right; right; reflexivity).
  all: left; repeat first [apply list_elem_of_here | apply list_elem_of_further].
Qed.

(** X23: only the worker writes to the panel node, at most once in a
    pass, and the only command ever written is [PANEL_REFRESH_CTRL_FI] to
    [refresh_ctrl]. *)
Theorem panel_writes op c :
  (count_writes (effects_of (run_op op) c) ≤ 1)%nat
  ∧ (is_public op = true → count_writes (effects_of (run_op op) c) = 0%nat)
  ∧ (∀ eff : Effect, eff ∈ effects_of (run_op op) c → is_write eff = true →
          eff = WriteCommandString kNodeName PANEL_REFRESH_CTRL_FI).
Proof.
  destruct op; vrr_unfold; cbn.
  all: repeat vrr_split.
  all: repeat split; try done; try lia.
  all: intros eff He Hw; repeat (apply elem_of_cons in He as [->|He]; try done).
  all: by apply elem_of_nil in He.
Qed.


(** X24: events that do not fit the state are consumed without any other
    change: a [kHibernateTimeout] in [kRendering] and a [kRenderingTimeout]
    in [kHibernate] are logged as errors, a [kNextFrameInsertion] in
    [kRendering] is dropped silently. *)
Theorem dispatch_ignored_event env c e :
  pq_top (mEventQueue c) = Some e →
  let popped := set_mEventQueue (pq_pop (mEventQueue c)) c in
  let handled := Log LOG_INFO "VrrController: handle event in state = " in
  (mState c = kRendering → mEventType e = kHibernateTimeout →
   dispatchEvent env c
   = (LoopContinue, popped,
      [ handled;
        Log LOG_ERROR
          "VrrController: receiving a hibernate timeout event while in the rendering state." ]))
  ∧ (mState c = kRendering → mEventType e = kNextFrameInsertion →
     dispatchEvent env c = (LoopContinue, popped, [handled]))
  ∧ (mState c = kHibernate → mEventType e = kRenderingTimeout →
     dispatchEvent env c
     = (LoopContinue, popped,
        [ handled;
          Log LOG_ERROR
            "VrrController: receiving a rendering timeout event while in the hibernate state." ])).
Proof.
  intros Htop popped handled. subst popped handled.
  repeat split; intros Hst Hty; vrr_unfold; cbn; rewrite Htop; cbn;
    rewrite Hst, Hty; by vrr_cases.
Qed.

(** X25: an enabled worker with an empty queue waits; when
    [setEnable(false)] then signals it, the worker goes on from the wait
    with the queue still empty, logs that the queue should not be empty and
    breaks out of its loop (for a clock reading of at least -1). *)
Theorem wakeup_on_empty_queue_breaks env env' c :
  mThreadExit c = false →
  mEnabled c = true →
  mEventQueue c = [] →
  -1 ≤ nowNs env' →
  threadBody_iteration env c = (LoopWait None, c, [])
  ∧ NotifyAll ∈ effects_of (setEnable false) c
  ∧ threadBody_fromDeadline env' (state_after (setEnable false) c)
    = (LoopBreak, state_after (setEnable false) c,
       [ Log LOG_WARNING "VrrController: event queue should NOT be empty.";
         Log LOG_ERROR "VrrController: event queue should NOT be empty." ]).
Proof.
  intros Hexit Hen Hq Hnow. vrr_unfold; cbn.
  do 3 (rewrite ?Hexit, ?Hen, ?Hq; cbn).
  rewrite decide_False by done. cbn.
  destruct (Z.ltb_spec (nowNs env') (-1)); [lia|]. cbn.
  repeat split. apply list_elem_of_here.
Qed.


End ControllerFacts.

(** ** Examples on concrete controllers *)

Lemma one_burst_reaches_mid_burst :
  @exec_trace example_header trace_one_burst (constructed 0) = example_mid_burst.
Proof. vm_compute. reflexivity. Qed.

(** C1, counterexample: in the middle of a burst with one frame pending,
    a failed write leaves the counter at one, not at zero. *)
Lemma write_failure_counter_not_decremented :
  0 < mPendingFramesToInsert example_mid_burst
  ∧ writeOk (env_at 63333333 false) = false
  ∧ mPendingFramesToInsert
      (state_after (@doFrameInsertionLocked example_header (env_at 63333333 false))
                   example_mid_burst)
    ≠ mPendingFramesToInsert example_mid_burst - 1.
Proof. repeat split. vm_compute. discriminate. Qed.

(** C1, witness: the failed write in the middle of a burst. *)
Lemma doFrameInsertionLocked_write_failure_witness :
  0 < mPendingFramesToInsert example_mid_burst
  ∧ writeOk (env_at 63333333 false) = false
  ∧ @doFrameInsertionLocked example_header (env_at 63333333 false) example_mid_burst
    = (-1, example_mid_burst,
       [ WriteCommandString kNodeName "PANEL_REFRESH_CTRL_FI";
         Log LOG_ERROR "VrrController: write command to file node failed." ]).
Proof.
  split; [reflexivity|]. split; [reflexivity|].
  apply (@doFrameInsertionLocked_write_failure example_header); reflexivity.
Defined.

(** C2, evaluated: [trace_two_bursts] reaches a state whose queue holds two
    [kNextFrameInsertion] events, one left over from the first burst
    ([setActiveVrrConfiguration] dropped only the [kRenderingTimeout]) and
    one from the second.  When the worker then dispatches both, the first
    uses up the frame counter and the second runs into
    [doFrameInsertionLocked]'s own error report. *)
Theorem two_bursts_second_insertion_rejected :
  @reachable example_header (@exec_trace example_header trace_two_bursts (constructed 0))
  ∧ count_type kNextFrameInsertion
      (mEventQueue (@exec_trace example_header trace_two_bursts (constructed 0)))
    = 2%nat
  ∧ mPendingFramesToInsert
      (@exec example_header (WorkerIteration (env_at 63333333 true))
         (@exec_trace example_header trace_two_bursts (constructed 0)))
    = 0
  ∧ effects_of (@run_op example_header (WorkerIteration (env_at 94333333 true)))
      (@exec example_header (WorkerIteration (env_at 63333333 true))
         (@exec_trace example_header trace_two_bursts (constructed 0)))
    = [ Log LOG_INFO "VrrController: handle event in state = ";
        Log LOG_ERROR
          "VrrController: the number of frames to be inserted should >= 1, but is " ].
Proof.
  split; [apply reachable_exec_trace; constructor|].
  split; [vm_compute; reflexivity|].
  split; vm_compute; reflexivity.
Qed.

(** C6, counterexample: disabling a controller that is already disabled
    emits nothing, so the condition variable is not signalled. *)
Lemma setEnable_same_value_no_signal :
  mEnabled (constructed 0) = false
  ∧ ¬ (NotifyAll ∈ effects_of (setEnable false) (constructed 0)).
Proof.
  split; [reflexivity|].
  change (effects_of (setEnable false) (constructed 0)) with (@nil Effect).
  apply not_elem_of_nil.
Qed.

(** C6, witness: disabling a disabled controller, and disabling a
    controller in the middle of a burst. *)
Lemma setEnable_signals_on_change_witness :
  mEnabled (constructed 0) = false
  ∧ setEnable false (constructed 0) = (tt, constructed 0, [])
  ∧ mEnabled example_mid_burst ≠ false
  ∧ effects_of (setEnable false) example_mid_burst = [NotifyAll]
  ∧ mEventQueue (state_after (setEnable false) example_mid_burst) = [].
Proof.
  split; [reflexivity|].
  split; [exact (proj1 (setEnable_signals_on_change false (constructed 0)) eq_refl)|].
  assert (Hne : mEnabled example_mid_burst ≠ false) by discriminate.
  split; [exact Hne|].
  destruct (proj2 (setEnable_signals_on_change false example_mid_burst) Hne)
    as [Heff Hst].
  split; [exact Heff|]. rewrite Hst. reflexivity.
Defined.

(** C7, witness: a present in the middle of a burst with no descriptor
    set. *)
Lemma onPresent_without_descriptor_witness :
  mPendingCurrentPresentTime (mRecord example_mid_burst) = None
  ∧ @onPresent example_header 70000000 example_mid_burst
    = (tt, example_mid_burst,
       [ Log LOG_WARNING
           "VrrController: VrrController: Present without expected present time information" ]).
Proof.
  split; [reflexivity|].
  apply (@onPresent_without_descriptor example_header). reflexivity.
Defined.

(** C5, witness: a present at 70 ms while hibernating on configuration 1;
    only the new [kRenderingTimeout], at 100 ms, stays queued. *)
Lemma onPresent_effect_witness :
  mPendingCurrentPresentTime (mRecord example_presenting) = Some example_descriptor
  ∧ mVrrConfigs example_presenting !! mVrrActiveConfig example_presenting
    = Some example_config
  ∧ mPresentHistory (mRecord (state_after (@onPresent example_header 70000000)
                                          example_presenting))
    = [example_descriptor]
  ∧ mState (state_after (@onPresent example_header 70000000) example_presenting)
    = kRendering
  ∧ mEventQueue (state_after (@onPresent example_header 70000000) example_presenting)
    ≡ₚ [ {| mEventType := kRenderingTimeout; mWhenNs := 100000000 |} ].
Proof.
  assert (Hp : mPendingCurrentPresentTime (mRecord example_presenting)
               = Some example_descriptor) by reflexivity.
  assert (Hc : mVrrConfigs example_presenting !! mVrrActiveConfig example_presenting
               = Some example_config) by reflexivity.
  split; [exact Hp|]. split; [exact Hc|].
  destruct (@onPresent_effect example_header 70000000 _ _ _ Hp Hc)
    as (Hhist & _ & Hst & Hq & _).
  split; [exact Hhist|]. split; [exact Hst|]. exact Hq.
Defined.

(** C8, witness: activating configuration 1 on an empty table, and in the
    middle of a burst on a table that has it. *)
Lemma setActiveVrrConfiguration_effect_witness :
  mVrrConfigs (constructed 0) !! 1 = None
  ∧ @setActiveVrrConfiguration example_header 0 1 (constructed 0)
    = (tt, constructed 0,
       [ Log LOG_ERROR "VrrController: Set an undefined active configuration" ])
  ∧ mVrrConfigs example_mid_burst !! 1 = Some example_config
  ∧ mState (state_after (@setActiveVrrConfiguration example_header 31000000 1)
                 example_mid_burst)
    = kRendering
  ∧ count_type kRenderingTimeout
      (mEventQueue (state_after (@setActiveVrrConfiguration example_header 31000000 1)
                                example_mid_burst))
    = 1%nat.
Proof.
  assert (Hn : mVrrConfigs (constructed 0) !! 1 = None) by reflexivity.
  assert (Hs : mVrrConfigs example_mid_burst !! 1 = Some example_config)
    by reflexivity.
  split; [exact Hn|].
  split; [exact (proj1 (@setActiveVrrConfiguration_effect example_header 0 1 (constructed 0)) Hn)|].
  split; [exact Hs|].
  destruct (proj2 (@setActiveVrrConfiguration_effect example_header 31000000 1
                 example_mid_burst)
              _ Hs) as (Hst & _ & _ & Hcount & _).
  split; [exact Hst | exact Hcount].
Defined.

(** C9, witness: the counter after [trace_two_bursts], and across
    [reset()]. *)
Lemma pending_frames_discipline_witness :
  @reachable example_header (@exec_trace example_header trace_two_bursts (constructed 0))
  ∧ 0 ≤ mPendingFramesToInsert
          (@exec_trace example_header trace_two_bursts (constructed 0))
  ∧ is_public CallReset = true
  ∧ mPendingFramesToInsert (@exec example_header CallReset example_mid_burst)
    = mPendingFramesToInsert example_mid_burst.
Proof.
  assert (Hreach : @reachable example_header
            (@exec_trace example_header trace_two_bursts (constructed 0))).
  { apply reachable_exec_trace. constructor. }
  destruct (@pending_frames_discipline example_header) as (Hnonneg & _ & Hpub & _).
  split; [exact Hreach|]. split; [exact (Hnonneg _ Hreach)|].
  split; [reflexivity|]. exact (Hpub CallReset example_mid_burst eq_refl).
Defined.

(** C10, witness: the resume of [example_resume]. *)
Lemma dispatch_resume_sets_rendering_witness :
  mState example_resume = kHibernate
  ∧ pq_top (mEventQueue example_resume)
    = Some {| mEventType := kNotifyExpectedPresentConfig; mWhenNs := 40000000 |}
  ∧ mNextExpectedPresentTime (mRecord example_resume) = None
  ∧ mState (state_after (@dispatchEvent example_header (env_at 40000000 true))
                        example_resume)
    = kRendering
  ∧ effects_of (@dispatchEvent example_header (env_at 40000000 true)) example_resume
    = [ Log LOG_INFO "VrrController: handle event in state = ";
        Log LOG_WARNING
          "VrrController: resume occurs without the expected present timing information." ].
Proof.
  split; [reflexivity|]. split; [reflexivity|]. split; [reflexivity|].
  destruct (@dispatch_resume_sets_rendering example_header (env_at 40000000 true)
              example_resume _ eq_refl eq_refl eq_refl) as (Hst & Hrest).
  split; [exact Hst|].
  destruct (Hrest eq_refl) as (_ & _ & Heff). exact Heff.
Defined.

(** ** Examples for the further properties *)

Lemma three_steps_reach_rendering :
  @exec_trace example_header (take 3 trace_one_burst) (constructed 0)
  = example_rendering.
Proof. vm_compute. reflexivity. Qed.

Lemma DisplayStatus_eq_equivalence_witness :
  DisplayStatus_eq status_off status_doze_suspend = true
  ∧ DisplayStatus_eq status_doze_suspend status_off = true
  ∧ DisplayStatus_eq status_off status_off = true.
Proof.
  split; [reflexivity|]. split; [reflexivity|].
  exact (proj1 (proj2 (proj2 DisplayStatus_eq_equivalence))
           status_off status_doze_suspend status_off eq_refl eq_refl).
Defined.

Lemma DisplayStatus_lt_strict_witness :
  DisplayStatus_lt status_off status_normal = true
  ∧ DisplayStatus_lt status_normal status_off = false.
Proof.
  split; [reflexivity|].
  exact (proj2 DisplayStatus_lt_strict status_off status_normal eq_refl).
Defined.

Lemma dropEventLocked_type_effect_witness :
  kHibernateTimeout ≠ kNextFrameInsertion
  ∧ count_type kHibernateTimeout
      (mEventQueue (state_after (dropEventLocked_type kNextFrameInsertion)
                                example_mid_burst))
    = count_type kHibernateTimeout (mEventQueue example_mid_burst)
  ∧ count_type kNextFrameInsertion
      (mEventQueue (state_after (dropEventLocked_type kNextFrameInsertion)
                                example_mid_burst))
    = 0%nat.
Proof.
  destruct (dropEventLocked_type_effect kNextFrameInsertion example_mid_burst)
    as (_ & Hnone & Hother & _).
  assert (Hne : kHibernateTimeout ≠ kNextFrameInsertion) by discriminate.
  split; [exact Hne|]. split; [exact (Hother kHibernateTimeout Hne)|]. exact Hnone.
Defined.

Lemma state_entry_points_witness :
  mState (@exec example_header (WorkerIteration (env_at 30000000 true))
                example_rendering) = kHibernate
  ∧ (mState example_rendering = kHibernate
     ∨ (mState example_rendering = kRendering
        ∧ is_public (WorkerIteration (env_at 30000000 true)) = false
        ∧ mEventType <$> pq_top (mEventQueue example_rendering)
          = Some kRenderingTimeout))
  ∧ mState (@exec example_header CallStopThread example_mid_burst) = kDisable
  ∧ (mState example_mid_burst = kDisable ∨ CallStopThread = CallStopThread).
Proof.
  split; [reflexivity|].
  split; [exact (proj1 (@state_entry_points example_header
                          (WorkerIteration (env_at 30000000 true))
                          example_rendering) eq_refl)|].
  split; [reflexivity|].
  exact (proj2 (@state_entry_points example_header CallStopThread
                  example_mid_burst) eq_refl).
Defined.

Lemma doFrameInsertionLocked_effect_witness :
  kHibernateTimeout ≠ kNextFrameInsertion
  ∧ count_type kHibernateTimeout
      (mEventQueue (state_after (@doFrameInsertionLocked example_header
                                   (env_at 63333333 true)) example_mid_burst))
    = count_type kHibernateTimeout (mEventQueue example_mid_burst)
  ∧ mPendingFramesToInsert
      (state_after (@doFrameInsertionLocked example_header (env_at 63333333 true))
                   example_mid_burst) = 0.
Proof.
  destruct (@doFrameInsertionLocked_effect example_header (env_at 63333333 true)
              example_mid_burst) as (_ & _ & Hp & _ & Hother & _).
  assert (Hne : kHibernateTimeout ≠ kNextFrameInsertion) by discriminate.
  split; [exact Hne|]. split; [exact (Hother kHibernateTimeout Hne)|]. exact Hp.
Defined.

Lemma dispatch_rendering_timeout_witness :
  mState example_rendering = kRendering
  ∧ pq_top (mEventQueue example_rendering)
    = Some {| mEventType := kRenderingTimeout; mWhenNs := 30000000 |}
  ∧ mState (state_after (@dispatchEvent example_header (env_at 30000000 true))
                        example_rendering) = kHibernate
  ∧ {| mEventType := kNextFrameInsertion; mWhenNs := 63333333 |}
    ∈ mEventQueue (state_after (@dispatchEvent example_header (env_at 30000000 true))
                               example_rendering).
Proof.
  split; [reflexivity|]. split; [reflexivity|].
  destruct (@dispatch_rendering_timeout example_header (env_at 30000000 true)
              example_rendering _ eq_refl eq_refl eq_refl)
    as (Hst & _ & _ & _ & _ & _ & _ & Hnfi).
  split; [exact Hst|]. exact (Hnfi eq_refl).
Defined.

Lemma reachable_pending_bounded_witness :
  @reachable example_header (@exec_trace example_header trace_two_bursts (constructed 0))
  ∧ 0 ≤ mPendingFramesToInsert
          (@exec_trace example_header trace_two_bursts (constructed 0))
      ≤ kNumFramesToInsert.
Proof.
  assert (Hreach : @reachable example_header
            (@exec_trace example_header trace_two_bursts (constructed 0))).
  { apply reachable_exec_trace. constructor. }
  split; [exact Hreach|]. exact (@reachable_pending_bounded example_header _ Hreach).
Defined.

Lemma onPresent_inserts_missing_config_witness :
  mPendingCurrentPresentTime (mRecord (set_mVrrConfigs ∅ example_presenting))
  = Some example_descriptor
  ∧ mVrrConfigs (set_mVrrConfigs ∅ example_presenting)
    !! mVrrActiveConfig (set_mVrrConfigs ∅ example_presenting) = None
  ∧ mVrrConfigs (state_after (@onPresent example_header 70000000)
                             (set_mVrrConfigs ∅ example_presenting))
    = {[ 1 := @VrrConfig_default example_header ]}.
Proof.
  split; [reflexivity|]. split; [reflexivity|].
  exact (proj1 (@onPresent_inserts_missing_config example_header 70000000
                  (set_mVrrConfigs ∅ example_presenting) example_descriptor
                  eq_refl eq_refl)).
Defined.

Lemma mVrrConfigs_only_grows_witness :
  (∀ configs, CallOnPresent 70000000 ≠ CallSetVrrConfigurations configs)
  ∧ (mVrrConfigs (@exec example_header (CallOnPresent 70000000) example_presenting)
     = mVrrConfigs example_presenting
     ∨ ∃ key, mVrrConfigs example_presenting !! key = None
              ∧ mVrrConfigs (@exec example_header (CallOnPresent 70000000)
                                   example_presenting)
                = <[key := @VrrConfig_default example_header]>
                    (mVrrConfigs example_presenting)).
Proof.
  assert (Hop : ∀ configs, CallOnPresent 70000000 ≠ CallSetVrrConfigurations configs)
    by discriminate.
  split; [exact Hop|].
  exact (@mVrrConfigs_only_grows example_header (CallOnPresent 70000000)
           example_presenting Hop).
Defined.

Lemma notify_then_dispatch_resumes_witness :
  mState example_mid_burst = kHibernate
  ∧ Forall (λ x, 40000000 < mWhenNs x) (mEventQueue example_mid_burst)
  ∧ mState (state_after (@dispatchEvent example_header (env_at 40000000 true))
              (state_after (notifyExpectedPresent 40000000 56666666 16666666)
                           example_mid_burst)) = kRendering
  ∧ mEventQueue (state_after (@dispatchEvent example_header (env_at 40000000 true))
                   (state_after (notifyExpectedPresent 40000000 56666666 16666666)
                                example_mid_burst))
    ≡ₚ mEventQueue example_mid_burst.
Proof.
  assert (Hq : Forall (λ x, 40000000 < mWhenNs x) (mEventQueue example_mid_burst)).
  { cbn. apply List.Forall_cons; [cbn; lia|].
    apply List.Forall_cons; [cbn; lia | apply List.Forall_nil]. }
  split; [reflexivity|]. split; [exact Hq|].
  destruct (@notify_then_dispatch_resumes example_header 40000000 56666666 16666666
              (env_at 40000000 true) example_mid_burst eq_refl Hq)
    as (_ & _ & Hst & _ & Hqueue & _).
  split; [exact Hst | exact Hqueue].
Defined.

Lemma setEnable_compose_witness :
  mEnabled example_mid_burst = true
  ∧ mEventQueue (state_after (setEnable true)
                   (state_after (setEnable false) example_mid_burst)) = [].
Proof.
  split; [reflexivity|].
  exact (proj2 (proj2 (proj2 (proj2 (setEnable_compose true example_mid_burst))))
           eq_refl).
Defined.

Lemma public_post_signals_witness :
  is_public (CallSetExpectedPresentTime 70000000 16666666) = true
  ∧ (NotifyAll ∈ effects_of (@run_op example_header
                               (CallSetExpectedPresentTime 70000000 16666666))
                            example_mid_burst
     ∨ mEventQueue (@exec example_header
                      (CallSetExpectedPresentTime 70000000 16666666)
                      example_mid_burst)
       = mEventQueue example_mid_burst
     ∨ mEventQueue (@exec example_header
                      (CallSetExpectedPresentTime 70000000 16666666)
                      example_mid_burst) = []).
Proof.
  split; [reflexivity|].
  exact (@public_post_signals example_header
           (CallSetExpectedPresentTime 70000000 16666666) example_mid_burst eq_refl).
Defined.

Lemma panel_writes_witness :
  is_public (CallOnPresent 70000000) = true
  ∧ count_writes (effects_of (@run_op example_header (CallOnPresent 70000000))
                             example_presenting) = 0%nat
  ∧ (count_writes (effects_of (@run_op example_header
                                 (WorkerIteration (env_at 30000000 true)))
                              example_rendering) ≤ 1)%nat.
Proof.
  split; [reflexivity|].
  split; [exact (proj1 (proj2 (@panel_writes example_header (CallOnPresent 70000000)
                                 example_presenting)) eq_refl)|].
  exact (proj1 (@panel_writes example_header (WorkerIteration (env_at 30000000 true))
                  example_rendering)).
Defined.

Lemma dispatch_ignored_event_witness :
  pq_top (mEventQueue (set_mState kRendering example_mid_burst))
  = Some {| mEventType := kNextFrameInsertion; mWhenNs := 63333333 |}
  ∧ mState (set_mState kRendering example_mid_burst) = kRendering
  ∧ @dispatchEvent example_header (env_at 63333333 true)
      (set_mState kRendering example_mid_burst)
    = (LoopContinue,
       set_mEventQueue [ {| mEventType := kHibernateTimeout; mWhenNs := 530000000 |} ]
                       (set_mState kRendering example_mid_burst),
       [ Log LOG_INFO "VrrController: handle event in state = " ]).
Proof.
  split; [reflexivity|]. split; [reflexivity|].
  exact (proj1 (proj2 (@dispatch_ignored_event example_header (env_at 63333333 true)
                         (set_mState kRendering example_mid_burst) _ eq_refl))
           eq_refl eq_refl).
Defined.

Lemma wakeup_on_empty_queue_breaks_witness :
  mThreadExit (state_after (setEnable true) (constructed 0)) = false
  ∧ mEnabled (state_after (setEnable true) (constructed 0)) = true
  ∧ mEventQueue (state_after (setEnable true) (constructed 0)) = []
  ∧ -1 ≤ 1000
  ∧ result_of (@threadBody_fromDeadline example_header (env_at 1000 true))
      (state_after (setEnable false) (state_after (setEnable true) (constructed 0)))
    = LoopBreak.
Proof.
  split; [reflexivity|]. split; [reflexivity|]. split; [reflexivity|].
  assert (Hnow : -1 ≤ nowNs (env_at 1000 true)) by (cbn; lia).
  split; [exact Hnow|].
  destruct (@wakeup_on_empty_queue_breaks example_header (env_at 0 true)
              (env_at 1000 true) (state_after (setEnable true) (constructed 0))
              eq_refl eq_refl eq_refl Hnow) as (_ & _ & Hbreak).
  unfold result_of. rewrite Hbreak. reflexivity.
Defined.
